(** * open_clip.factory: model registry, checkpoint loader and model builder

    A shallow embedding of [src/open_clip/factory.py].  Python objects that
    the module shares and mutates (the configuration documents held by the
    registry) live in an explicit heap; the two module globals
    [_MODEL_CONFIG_PATHS] and [_MODEL_CONFIGS] are fields of the module
    state; exceptions are an explicit outcome; the calls into collaborators
    whose code lives in other modules ([CLIP], [load_openai_model],
    [torch.load], ...) are parameters and every call is recorded in a trace.

    Strings are byte strings: [str.lower], [str.isdigit] and the regular
    expression class [\d] act on the ASCII letters and digits.  They agree
    with Python's on ASCII text; a statement that needs the agreement asks
    for plain names ([plain_name]). *)

From Stdlib Require Import ZArith NArith List Ascii String Bool Lia Permutation.
From stdpp Require Import base list strings.
Import ListNotations.

Local Open Scope string_scope.
Local Open Scope list_scope.
Local Set Warnings "-register-all".

(** ** Exceptions and outcomes *)

Inductive exn :=
| JSONDecodeError
| IsADirectoryError
| FileNotFoundError
| TypeError
| AttributeError
| StopIteration
| AssertionError
| RuntimeError (msg : string)
| CollaboratorError (tag : string).

Inductive result (A : Type) :=
| Ok (a : A)
| Raise (e : exn).
Arguments Ok {A} a.
Arguments Raise {A} e.

Definition rbind {A B} (r : result A) (k : A -> result B) : result B :=
  match r with
  | Ok a => k a
  | Raise e => Raise e
  end.

Definition rmap {A B} (f : A -> B) (r : result A) : result B :=
  rbind r (fun a => Ok (f a)).

Declare Scope result_scope.
Delimit Scope result_scope with result.
Notation "'try' x ':=' c 'in' k" := (rbind c (fun x => k))
  (at level 10, x name, c at level 100, k at level 200) : result_scope.
Local Open Scope result_scope.

(** ** Strings *)

Module Str.

Definition is_upper (c : ascii) : bool :=
  let n := nat_of_ascii c in (65 <=? n)%nat && (n <=? 90)%nat.

Definition is_digit (c : ascii) : bool :=
  let n := nat_of_ascii c in (48 <=? n)%nat && (n <=? 57)%nat.

Definition char_lower (c : ascii) : ascii :=
  if is_upper c then ascii_of_nat (nat_of_ascii c + 32) else c.

(** [s.lower()] *)
Fixpoint lower (s : string) : string :=
  match s with
  | EmptyString => EmptyString
  | String c s' => String (char_lower c) (lower s')
  end.

Fixpoint all_digits (s : string) : bool :=
  match s with
  | EmptyString => true
  | String c s' => is_digit c && all_digits s'
  end.

(** [s.isdigit()]: false on the empty string *)
Definition isdigit (s : string) : bool :=
  match s with
  | EmptyString => false
  | _ => all_digits s
  end.

Fixpoint has_upper (s : string) : bool :=
  match s with
  | EmptyString => false
  | String c s' => is_upper c || has_upper s'
  end.

Definition digit_value (c : ascii) : N := N.of_nat (nat_of_ascii c - 48).

Fixpoint int_acc (acc : N) (s : string) : N :=
  match s with
  | EmptyString => acc
  | String c s' => int_acc (10 * acc + digit_value c)%N s'
  end.

(** [int(s)] on a string of decimal digits *)
Definition int (s : string) : N := int_acc 0%N s.

(** [s.startswith(p)] *)
Fixpoint startswith (s p : string) : bool :=
  match p, s with
  | EmptyString, _ => true
  | String _ _, EmptyString => false
  | String a p', String b s' => Ascii.eqb a b && startswith s' p'
  end.

(** [s[n:]] *)
Fixpoint slice_from (n : nat) (s : string) : string :=
  match n, s with
  | O, _ => s
  | S _, EmptyString => EmptyString
  | S n', String _ s' => slice_from n' s'
  end.

(** [s.endswith(p)] *)
Definition endswith (s p : string) : bool :=
  (String.length p <=? String.length s)%nat
  && String.eqb (slice_from (String.length s - String.length p) s) p.

(** [s.rfind('.')]: index of the last dot *)
Fixpoint rfind_dot_from (i : nat) (s : string) : option nat :=
  match s with
  | EmptyString => None
  | String c s' =>
      match rfind_dot_from (S i) s' with
      | Some j => Some j
      | None => if Ascii.eqb c "."%char then Some i else None
      end
  end.
Definition rfind_dot (s : string) : option nat := rfind_dot_from 0 s.

(** [s[:n]] *)
Fixpoint slice_to (n : nat) (s : string) : string :=
  match n, s with
  | O, _ => EmptyString
  | S _, EmptyString => EmptyString
  | S n', String c s' => String c (slice_to n' s')
  end.

(** [needle in s] for strings: substring test *)
Fixpoint contains (s needle : string) : bool :=
  startswith s needle
  || match s with
     | EmptyString => false
     | String _ s' => contains s' needle
     end.

(** [re.split(r'(\d+)', s)]: the pieces alternate, text first and text
    last, with the digit runs (the capturing group) in between. *)
Fixpoint re_split_digits (s : string) : list string :=
  match s with
  | EmptyString => [EmptyString]
  | String c s' =>
      match re_split_digits s' with
      | [] => [String c EmptyString]
      | t0 :: rest =>
          if is_digit c then
            match t0, rest with
            | EmptyString, d :: rest' => EmptyString :: String c d :: rest'
            | _, _ => EmptyString :: String c EmptyString :: t0 :: rest
            end
          else String c t0 :: rest
      end
  end.

End Str.

(** ** Natural sort key *)

(** An element of the list built by [_natural_key]: an [int] or a [str]. *)
Inductive key_part :=
| KInt (n : N)
| KStr (s : string).

Definition natural_key := list key_part.

(** [x == y] between key elements: an [int] never equals a [str]. *)
Definition part_eqb (x y : key_part) : bool :=
  match x, y with
  | KInt a, KInt b => N.eqb a b
  | KStr a, KStr b => String.eqb a b
  | _, _ => false
  end.

(** [x < y] between key elements: ordering an [int] against a [str]
    raises [TypeError]. *)
Definition part_lt (x y : key_part) : result bool :=
  match x, y with
  | KInt a, KInt b => Ok (N.ltb a b)
  | KStr a, KStr b => Ok (String.ltb a b)
  | _, _ => Raise TypeError
  end.

(** [a < b] between lists: the first pair of unequal elements decides;
    when one list is a prefix of the other, the shorter one is smaller. *)
Fixpoint list_lt (a b : natural_key) : result bool :=
  match a, b with
  | [], [] => Ok false
  | [], _ :: _ => Ok true
  | _ :: _, [] => Ok false
  | x :: a', y :: b' =>
      if part_eqb x y then list_lt a' b' else part_lt x y
  end.

(** [_natural_key(string_)] *)
Definition _natural_key (string_ : string) : natural_key :=
  map (fun s => if Str.isdigit s then KInt (Str.int s) else KStr s)
      (Str.re_split_digits (Str.lower string_)).

(** ** [sorted(iterable, key=...)]

    The sort is stable and uses only [<] on the keys, each key computed
    once.  Insertion from the right gives the one stable arrangement; a
    comparison that raises aborts the sort. *)

Section Sorting.
Context {K A : Type}.
Variable lt : K -> K -> result bool.

Fixpoint insert_sorted (x : K * A) (l : list (K * A)) : result (list (K * A)) :=
  match l with
  | [] => Ok [x]
  | y :: l' =>
      try b := lt (fst y) (fst x) in
      if b then rmap (cons y) (insert_sorted x l') else Ok (x :: l)
  end.

Fixpoint sort_decorated (l : list (K * A)) : result (list (K * A)) :=
  match l with
  | [] => Ok []
  | x :: l' => try r := sort_decorated l' in insert_sorted x r
  end.

Definition sorted (key : A -> K) (l : list A) : result (list A) :=
  rmap (map snd) (sort_decorated (map (fun x => (key x, x)) l)).
End Sorting.

(** ** Python dicts

    A [dict] keeps its keys in insertion order; assigning to a key that is
    present replaces the value where it stands. *)

Section Dict.
Context {V : Type}.

Fixpoint dict_get (k : string) (d : list (string * V)) : option V :=
  match d with
  | [] => None
  | (k', v) :: d' => if String.eqb k' k then Some v else dict_get k d'
  end.

(** [k in d] *)
Definition dict_contains (k : string) (d : list (string * V)) : bool :=
  match dict_get k d with
  | Some _ => true
  | None => false
  end.

(** [d[k] = v] *)
Fixpoint dict_set (k : string) (v : V) (d : list (string * V)) : list (string * V) :=
  match d with
  | [] => [(k, v)]
  | (k', v') :: d' =>
      if String.eqb k' k then (k, v) :: d' else (k', v') :: dict_set k v d'
  end.

(** [d.update(items)], also [{k: v for k, v in items}] when [d] is empty *)
Definition dict_update (d : list (string * V)) (items : list (string * V)) :=
  fold_left (fun acc kv => dict_set (fst kv) (snd kv) acc) items d.

Definition dict_keys (d : list (string * V)) : list string := map fst d.
End Dict.

(** ** Documents produced by [json.load] *)

Inductive json :=
| JNull
| JBool (b : bool)
| JInt (n : Z)
| JFloat (literal : string)
| JStr (s : string)
| JArr (items : list json)
| JObj (fields : list (string * json)).

(** [a in model_cfg]: key membership on a dict, element membership on a
    list, substring on a string; the other JSON values are not containers. *)
Definition py_in (a : string) (v : json) : result bool :=
  match v with
  | JObj fields => Ok (dict_contains a fields)
  | JArr items =>
      Ok (existsb (fun x => match x with JStr s => String.eqb s a | _ => false end) items)
  | JStr s => Ok (Str.contains s a)
  | JNull | JBool _ | JInt _ | JFloat _ => Raise TypeError
  end.

(** [all(a in model_cfg for a in names)]: the generator stops at the first
    false test. *)
Fixpoint all_in (names : list string) (v : json) : result bool :=
  match names with
  | [] => Ok true
  | a :: names' =>
      try b := py_in a v in
      if b then all_in names' v else Ok false
  end.

Definition required_fields : list string := ["embed_dim"; "vision_cfg"; "text_cfg"].

(** [model_cfg[k] = v] *)
Definition json_setitem (k : string) (v : json) (obj : json) : result json :=
  match obj with
  | JObj fields => Ok (JObj (dict_set k v fields))
  | _ => Raise TypeError
  end.

(** ** Paths and the filesystem *)

Definition Path := list string.

Module PathOps.
(** [p.name] *)
Definition name (p : Path) : string := List.last p EmptyString.

Definition split_name (nm : string) : string * string :=
  match Str.rfind_dot nm with
  | Some i =>
      if (0 <? i)%nat && (i <? String.length nm - 1)%nat
      then (Str.slice_to i nm, Str.slice_from i nm)
      else (nm, EmptyString)
  | None => (nm, EmptyString)
  end.

(** [p.stem] *)
Definition stem (p : Path) : string := fst (split_name (name p)).
(** [p.suffix] *)
Definition suffix (p : Path) : string := snd (split_name (name p)).
(** [p / child] *)
Definition join (p : Path) (child : string) : Path := p ++ [child].
End PathOps.

(** What [json.load] makes of a file's text. *)
Inductive content :=
| Document (doc : json)
| Malformed.

Inductive node :=
| File (c : content)
| Dir (entries : list (string * node)).

Definition filesystem := node.

Fixpoint fs_lookup (n : node) (p : Path) : option node :=
  match p with
  | [] => Some n
  | c :: p' =>
      match n with
      | Dir entries =>
          match dict_get c entries with
          | Some n' => fs_lookup n' p'
          | None => None
          end
      | File _ => None
      end
  end.

Definition is_file (fs : filesystem) (p : Path) : bool :=
  match fs_lookup fs p with Some (File _) => true | _ => false end.

Definition is_dir (fs : filesystem) (p : Path) : bool :=
  match fs_lookup fs p with Some (Dir _) => true | _ => false end.

(** [p.glob('*' + ext)]: the directory's entries whose name ends with
    [ext], in listing order; nothing when [p] is not a directory. *)
Definition glob (fs : filesystem) (p : Path) (ext : string) : list Path :=
  match fs_lookup fs p with
  | Some (Dir entries) =>
      map (fun e => PathOps.join p (fst e))
          (filter (fun e => Str.endswith (fst e) ext) entries)
  | _ => []
  end.

(** [with open(cf, 'r') as f: json.load(f)] *)
Definition read_json (fs : filesystem) (cf : Path) : result json :=
  match fs_lookup fs cf with
  | Some (File (Document doc)) => Ok doc
  | Some (File Malformed) => Raise JSONDecodeError
  | Some (Dir _) => Raise IsADirectoryError
  | None => Raise FileNotFoundError
  end.

(** ** Checkpoints, devices and the call trace *)

(** What [torch.load] can hand back: a tensor, a mapping keyed by
    parameter names, or some other pickled object. *)
Inductive pyobj :=
| Tensor (id : Z)
| Mapping (items : list (string * pyobj))
| Opaque (tag : string).

Record device := { dev_type : string; dev_index : option nat }.

Definition cpu : device := {| dev_type := "cpu"; dev_index := None |}.

(** One entry per logging call, per access to the registry global and per
    call into another module, in program order. *)
Inductive event :=
| LogInfo (msg : string)
| LogWarning (msg : string)
| LogError (model_name : string) (available : list string)
| RegistryContains (model_name : string)
| RegistryGet (model_name : string)
| CallLoadOpenai (model_name : string) (d : device) (jit : bool)
| CallFloat
| CallCLIP (model_cfg : json)
| CallGetPretrainedUrl (model_name pretrained : string)
| CallDownloadPretrained (url : string)
| CallPathExists (path : string)
| CallTorchLoad (path : string)
| CallModelLoadStateDict (state_dict : pyobj)
| CallTo (d : device)
| CallConvertWeightsToFp16
| CallJitScript.

(** ** Module state *)

Definition loc := nat.

Record state := mkState {
  heap : list json;
  _MODEL_CONFIG_PATHS : list Path;
  _MODEL_CONFIGS : list (string * loc);
  trace : list event;
}.

Definition M (A : Type) : Type := state -> result A * state.

Definition ret {A} (a : A) : M A := fun st => (Ok a, st).
Definition raise {A} (e : exn) : M A := fun st => (Raise e, st).
Definition lift {A} (r : result A) : M A := fun st => (r, st).
Definition bind {A B} (c : M A) (k : A -> M B) : M B :=
  fun st =>
    match c st with
    | (Ok a, st') => k a st'
    | (Raise e, st') => (Raise e, st')
    end.

Declare Scope py_scope.
Delimit Scope py_scope with py.
Notation "x <- c ;; k" := (bind c (fun x => k))
  (at level 100, c at next level, right associativity) : py_scope.
Notation "c ;; k" := (bind c (fun _ => k))
  (at level 100, right associativity) : py_scope.
Local Open Scope py_scope.

(** A fresh object holding [v]. *)
Definition alloc (v : json) : M loc :=
  fun st => (Ok (length (heap st)),
             mkState (heap st ++ [v]) (_MODEL_CONFIG_PATHS st) (_MODEL_CONFIGS st) (trace st)).

Definition read_heap (h : list json) (l : loc) : json := default JNull (h !! l).

Definition deref (l : loc) : M json :=
  fun st => (Ok (read_heap (heap st) l), st).

Definition store (l : loc) (v : json) : M unit :=
  fun st => (Ok tt,
             mkState (<[l := v]> (heap st)) (_MODEL_CONFIG_PATHS st) (_MODEL_CONFIGS st) (trace st)).

Definition get_paths : M (list Path) := fun st => (Ok (_MODEL_CONFIG_PATHS st), st).
Definition get_configs : M (list (string * loc)) := fun st => (Ok (_MODEL_CONFIGS st), st).

Definition put_paths (ps : list Path) : M unit :=
  fun st => (Ok tt, mkState (heap st) ps (_MODEL_CONFIGS st) (trace st)).
Definition put_configs (cs : list (string * loc)) : M unit :=
  fun st => (Ok tt, mkState (heap st) (_MODEL_CONFIG_PATHS st) cs (trace st)).

Definition emit (e : event) : M unit :=
  fun st => (Ok tt,
             mkState (heap st) (_MODEL_CONFIG_PATHS st) (_MODEL_CONFIGS st) (trace st ++ [e])).

(** [deepcopy(obj)]: a new object with the same content.  A document is
    held whole in its heap cell, nested documents included, so the copy
    shares nothing with the original. *)
Definition deepcopy (l : loc) : M loc :=
  v <- deref l ;; alloc v.

(** [json.load] of an opened file: the document becomes a new object. *)
Definition json_load (fs : filesystem) (cf : Path) : M loc :=
  doc <- lift (read_json fs cf) ;; alloc doc.

(** A function applied to the value of a keyed item. *)
Definition on_value {K A B : Type} (f : A -> B) (p : K * A) : K * B := (fst p, f (snd p)).

(** ** The registry *)

Section Registry.
(** [Path(__file__).parent] *)
Variable module_dir : Path.

Definition default_config_path : Path := PathOps.join module_dir "model_configs".

Definition config_ext : list string := [".json"].

(** First loop of [_rescan_model_configs]. *)
Definition collect_config_files (fs : filesystem) (paths : list Path) : list Path :=
  flat_map
    (fun config_path =>
       if is_file fs config_path
          && existsb (String.eqb (PathOps.suffix config_path)) config_ext
       then [config_path]
       else if is_dir fs config_path
            then flat_map (fun ext => glob fs config_path ext) config_ext
            else [])
    paths.

(** Second loop of [_rescan_model_configs]. *)
Fixpoint load_config_files (fs : filesystem) (config_files : list Path) : M unit :=
  match config_files with
  | [] => ret tt
  | cf :: rest =>
      model_cfg <- json_load fs cf ;;
      doc <- deref model_cfg ;;
      ok <- lift (all_in required_fields doc) ;;
      (if ok : bool
       then (cs <- get_configs ;; put_configs (dict_set (PathOps.stem cf) model_cfg cs))
       else ret tt) ;;
      load_config_files fs rest
  end.

Definition _rescan_model_configs (fs : filesystem) : M unit :=
  paths <- get_paths ;;
  let config_files := collect_config_files fs paths in
  load_config_files fs config_files ;;
  cs <- get_configs ;;
  items <- lift (sorted list_lt (fun x : string * loc => _natural_key (fst x)) cs) ;;
  put_configs (dict_update [] items).

(** The module body: the two globals, then the initial populate. *)
Definition initial_state : state := mkState [] [default_config_path] [] [].

Definition import_module (fs : filesystem) : result unit * state :=
  _rescan_model_configs fs initial_state.

Fixpoint list_models_loop (fs : filesystem) (config_files : list Path)
    (models : list string) : result (list string) :=
  match config_files with
  | [] => Ok models
  | cf :: rest =>
      try model_cfg := read_json fs cf in
      try ok := all_in required_fields model_cfg in
      list_models_loop fs rest (if ok : bool then models ++ [PathOps.stem cf] else models)
  end.

Definition list_models (fs : filesystem) : result (list string) :=
  let model_config_path := default_config_path in
  let config_files := glob fs model_config_path ".json" in
  try models := list_models_loop fs config_files [] in
  sorted list_lt _natural_key models.

Definition add_model_config (fs : filesystem) (path : Path) : M unit :=
  ps <- get_paths ;;
  put_paths (ps ++ [path]) ;;
  _rescan_model_configs fs.

(** The registry as its content: each name with the document it holds. *)
Definition registry_view (st : state) : list (string * json) :=
  map (on_value (read_heap (heap st))) (_MODEL_CONFIGS st).

Definition registry_names (st : state) : list string := dict_keys (_MODEL_CONFIGS st).
End Registry.

(** ** Checkpoint loader *)

(** Lines 51-54: the mapping under the "state_dict" key when the
    checkpoint is a dict that has one, the checkpoint itself otherwise. *)
Definition select_state_dict (checkpoint : pyobj) : pyobj :=
  match checkpoint with
  | Mapping items =>
      match dict_get "state_dict" items with
      | Some inner => inner
      | None => checkpoint
      end
  | _ => checkpoint
  end.

(** [(k[7:], v)] *)
Definition strip_key (kv : string * pyobj) : string * pyobj :=
  (Str.slice_from 7 (fst kv), snd kv).

(** Lines 55-57: probe the first key, rebuild the dict when it starts with
    "module".  [next] raises on an empty mapping; an object that is not a
    mapping has no [items]. *)
Definition strip_module_prefix (state_dict : pyobj) : result pyobj :=
  match state_dict with
  | Mapping items =>
      match items with
      | [] => Raise StopIteration
      | (first_key, _) :: _ =>
          if Str.startswith first_key "module"
          then Ok (Mapping (dict_update [] (map strip_key items)))
          else Ok state_dict
      end
  | Tensor _ | Opaque _ => Raise AttributeError
  end.

Section CheckpointLoader.
(** [torch.load(path, map_location=...)] *)
Variable torch_load : string -> result pyobj.

Definition load_state_dict (checkpoint_path : string) : result pyobj :=
  try checkpoint := torch_load checkpoint_path in
  let state_dict := select_state_dict checkpoint in
  strip_module_prefix state_dict.
End CheckpointLoader.

(** ** Model builder *)

(** The functions and methods [create_model] calls in other modules. *)
Record collaborators := {
  Model : Type;
  load_openai_model : string -> device -> bool -> result Model;
  model_float : Model -> Model;
  CLIP : json -> result Model;
  get_pretrained_url : string -> string -> string;
  download_pretrained : string -> result string;
  path_exists : string -> bool;
  torch_load : string -> result pyobj;
  model_load_state_dict : Model -> pyobj -> result Model;
  model_to : Model -> device -> Model;
  convert_weights_to_fp16 : Model -> Model;
  jit_script : Model -> result Model;
}.

Definition truthy (s : string) : bool := negb (String.eqb s EmptyString).

Section Builder.
Variable module_dir : Path.
Variable X : collaborators.

Definition config_not_found (model_name : string) : exn :=
  RuntimeError ("Model config for " ++ model_name ++ " not found.").

Definition weights_not_found (pretrained model_name : string) : exn :=
  RuntimeError ("Pretrained weights (" ++ pretrained ++ ") not found for model "
                ++ model_name ++ ".").

(** [assert] statements are taken as enabled (no [-O]): a false test
    raises [AssertionError]. *)
Definition create_model (fs : filesystem)
    (model_name pretrained precision : string) (dev : device)
    (jit force_quick_gelu : bool) : M (Model X) :=
  let pretrained := Str.lower pretrained in
  if String.eqb pretrained "openai" then
    emit (LogInfo ("Loading pretrained " ++ model_name ++ " from OpenAI.")) ;;
    emit (CallLoadOpenai model_name dev jit) ;;
    model <- lift (load_openai_model X model_name dev jit) ;;
    if String.eqb precision "amp" || String.eqb precision "fp32"
    then emit CallFloat ;; ret (model_float X model)
    else ret model
  else
    emit (RegistryContains model_name) ;;
    cs <- get_configs ;;
    model_cfg <-
      match dict_get model_name cs with
      | Some entry =>
          emit (LogInfo ("Loading " ++ model_name ++ " model config.")) ;;
          emit (RegistryGet model_name) ;;
          deepcopy entry
      | None =>
          available <- lift (list_models module_dir fs) ;;
          emit (LogError model_name available) ;;
          raise (config_not_found model_name)
      end ;;
    (if force_quick_gelu
     then cfg <- deref model_cfg ;;
          cfg' <- lift (json_setitem "quick_gelu" (JBool true) cfg) ;;
          store model_cfg cfg'
     else ret tt) ;;
    cfg <- deref model_cfg ;;
    model <-
      match cfg with
      | JObj _ => emit (CallCLIP cfg) ;; lift (CLIP X cfg)
      | _ => raise TypeError
      end ;;
    model <-
      (if truthy pretrained then
         emit (CallGetPretrainedUrl model_name pretrained) ;;
         let url := get_pretrained_url X model_name pretrained in
         checkpoint_path <-
           (if truthy url
            then emit (CallDownloadPretrained url) ;; lift (download_pretrained X url)
            else emit (CallPathExists pretrained) ;;
                 if path_exists X pretrained then ret pretrained else ret EmptyString) ;;
         if truthy checkpoint_path then
           emit (LogInfo ("Loading pretrained " ++ model_name ++ " weights ("
                          ++ pretrained ++ ").")) ;;
           emit (CallTorchLoad checkpoint_path) ;;
           sd <- lift (load_state_dict (torch_load X) checkpoint_path) ;;
           emit (CallModelLoadStateDict sd) ;;
           lift (model_load_state_dict X model sd)
         else
           emit (LogWarning ("Pretrained weights (" ++ pretrained
                             ++ ") not found for model " ++ model_name ++ ".")) ;;
           raise (weights_not_found pretrained model_name)
       else ret model) ;;
    emit (CallTo dev) ;;
    let model := model_to X model dev in
    model <-
      (if String.eqb precision "fp16" then
         if String.eqb (dev_type dev) "cpu"
         then raise AssertionError
         else emit CallConvertWeightsToFp16 ;; ret (convert_weights_to_fp16 X model)
       else ret model) ;;
    if jit then emit CallJitScript ;; lift (jit_script X model) else ret model.
End Builder.

(** ** Vocabulary of the statements *)

(** Events that read the registry global. *)
Definition is_registry_access (e : event) : bool :=
  match e with
  | RegistryContains _ | RegistryGet _ => true
  | _ => false
  end.

(** Events that construct a model object. *)
Definition constructs_model (e : event) : bool :=
  match e with
  | CallCLIP _ | CallLoadOpenai _ _ _ => true
  | _ => false
  end.

(** Every registry entry refers to an object that exists. *)
Definition registry_wf (st : state) : Prop :=
  Forall (fun kv : string * loc => snd kv < length (heap st)) (_MODEL_CONFIGS st).

(** The registry is a dict (no name twice) of existing objects. *)
Definition registry_ok (st : state) : Prop :=
  List.NoDup (registry_names st) /\ registry_wf st.

(** A candidate file that opens and parses, and whose document can be
    tested for the required fields. *)
Definition readable (fs : filesystem) (cf : Path) : Prop :=
  exists doc b, read_json fs cf = Ok doc /\ all_in required_fields doc = Ok b.

(** A candidate file that parses to a JSON object. *)
Definition holds_object (fs : filesystem) (cf : Path) : Prop :=
  exists fields, read_json fs cf = Ok (JObj fields).

(** A candidate file whose document passes the required-fields test. *)
Definition complete (fs : filesystem) (cf : Path) (doc : json) : Prop :=
  read_json fs cf = Ok doc /\ Forall (fun a => py_in a doc = Ok true) required_fields.

(** The items the second loop of a scan assigns, in order. *)
Definition valid_entries (fs : filesystem) (files : list Path) : list (string * json) :=
  flat_map
    (fun cf =>
       match read_json fs cf with
       | Ok doc =>
           match all_in required_fields doc with
           | Ok true => [(PathOps.stem cf, doc)]
           | _ => []
           end
       | Raise _ => []
       end)
    files.

(** The sort key of a registry item: the natural key of its name. *)
Definition item_key {A : Type} (x : string * A) : natural_key := _natural_key (fst x).

(** A list of names in natural order: no element sorts strictly before its
    predecessor. *)
Fixpoint naturally_sorted (names : list string) : Prop :=
  match names with
  | [] => True
  | a :: rest =>
      match rest with
      | [] => True
      | b :: _ => list_lt (_natural_key b) (_natural_key a) = Ok false
      end /\ naturally_sorted rest
  end.

(** A decorated list in order: no element's key is strictly smaller than
    the key of the element before it. *)
Fixpoint ordered_by {K A : Type} (lt : K -> K -> result bool) (l : list (K * A)) : Prop :=
  match l with
  | [] => True
  | x :: rest =>
      match rest with
      | [] => True
      | y :: _ => lt (fst y) (fst x) = Ok false
      end /\ ordered_by lt rest
  end.

(** [(key(x), x)] for every element. *)
Definition decorate {K A : Type} (key : A -> K) (l : list A) : list (K * A) :=
  map (fun x => (key x, x)) l.

(** ** Shape of a natural key *)

(** The pieces of [re.split(r'(\d+)', s)]: text without any digit at the
    even positions, non-empty runs of digits at the odd ones. *)
Fixpoint no_digits (s : string) : bool :=
  match s with
  | EmptyString => true
  | String c s' => negb (Str.is_digit c) && no_digits s'
  end.

Fixpoint pieces_ok (text : bool) (pieces : list string) : Prop :=
  match pieces with
  | [] => True
  | p :: rest =>
      (if text then no_digits p = true else Str.isdigit p = true)
      /\ pieces_ok (negb text) rest
  end.

(** A key alternates: [str] at the even positions, [int] at the odd. *)
Fixpoint alternating (text : bool) (k : natural_key) : Prop :=
  match k with
  | [] => True
  | part :: rest =>
      match part, text with
      | KStr _, true | KInt _, false => alternating (negb text) rest
      | _, _ => False
      end
  end.

(** ** A concrete installation, for running the model *)

Module Demo.

Definition pkg : Path := ["site-packages"; "open_clip"].

Definition vit_cfg (width : Z) : json :=
  JObj [("embed_dim", JInt width);
        ("vision_cfg", JObj [("image_size", JInt 224); ("patch_size", JInt 32)]);
        ("text_cfg", JObj [("context_length", JInt 77)])].

Definition partial_cfg : json := JObj [("embed_dim", JInt 512)].

Definition tree (configs : list (string * node)) (extra : list (string * node)) : filesystem :=
  Dir [("site-packages", Dir [("open_clip", Dir [("model_configs", Dir configs)])]);
       ("extra", Dir extra)].

(** The package directory as shipped. *)
Definition fs_shipped : filesystem :=
  tree [("ViT-B-32.json", File (Document (vit_cfg 512)));
        ("ViT-B-16.json", File (Document (vit_cfg 512)));
        ("RN50.json", File (Document (vit_cfg 1024)))]
       [].

(** One config removed from the package directory. *)
Definition fs_removed : filesystem :=
  tree [("ViT-B-32.json", File (Document (vit_cfg 512)));
        ("ViT-B-16.json", File (Document (vit_cfg 512)))]
       [].

(** A file that is not JSON dropped into the package directory. *)
Definition fs_stray : filesystem :=
  tree [("ViT-B-32.json", File (Document (vit_cfg 512)));
        ("broken.json", File Malformed)]
       [].

(** A document that parses but lacks two of the required fields. *)
Definition fs_partial : filesystem :=
  tree [("ViT-B-32.json", File (Document (vit_cfg 512)));
        ("draft.json", File (Document partial_cfg))]
       [].

(** A document that parses to a number. *)
Definition fs_scalar : filesystem :=
  tree [("ViT-B-32.json", File (Document (vit_cfg 512)));
        ("seven.json", File (Document (JInt 7)))]
       [].

(** A second source directory holding one more config. *)
Definition fs_extra : filesystem :=
  tree [("ViT-B-32.json", File (Document (vit_cfg 512)))]
       [("model10.json", File (Document (vit_cfg 256)));
        ("model2.json", File (Document (vit_cfg 128)))].

Definition world : collaborators := {|
  Model := list string;
  load_openai_model name _ _ := Ok ["openai"; name];
  model_float m := (m ++ ["float"])%list;
  CLIP _ := Ok ["clip"];
  get_pretrained_url _ _ := EmptyString;
  download_pretrained url := Ok ("/cache/" ++ url)%string;
  path_exists p := String.eqb p "/ckpt/epoch_1.pt";
  torch_load _ := Ok (Mapping [("state_dict",
                                Mapping [("module.logit_scale", Tensor 1);
                                         ("module.visual.proj", Tensor 2)])]);
  model_load_state_dict m _ := Ok (m ++ ["weights"])%list;
  model_to m d := (m ++ [dev_type d])%list;
  convert_weights_to_fp16 m := (m ++ ["fp16"])%list;
  jit_script m := Ok (m ++ ["jit"])%list;
|}.

Definition cuda : device := {| dev_type := "cuda"; dev_index := Some 0 |}.

(** The module state right after import over [fs_shipped]. *)
Definition booted : state := snd (import_module pkg fs_shipped).

(** The state after "RN50.json" was deleted and the sources scanned again. *)
Definition after_removal : state := snd (_rescan_model_configs fs_removed booted).

(** The state after import over [fs_extra] and registration of the
    directory "extra". *)
Definition with_extra : state :=
  snd (add_model_config fs_extra ["extra"] (snd (import_module pkg fs_extra))).

(** A training checkpoint: bookkeeping next to the wrapped parameters,
    saved from a distributed wrapper. *)
Definition training_checkpoint : pyobj :=
  Mapping [("epoch", Tensor 3);
           ("state_dict", Mapping [("module.visual.proj", Tensor 1);
                                   ("module.logit_scale", Tensor 2)])].

(** A checkpoint whose wrapped mapping has no parameters. *)
Definition hollow_checkpoint : pyobj := Mapping [("state_dict", Mapping [])].

Definition torch_load_of (checkpoint : pyobj) : string -> result pyobj :=
  fun _ => Ok checkpoint.

End Demo.

(** ** Model plus preprocessing pipelines *)

(** What [create_model_and_transforms] uses besides [create_model]: the
    attribute [model.visual.image_size] and [image_transform] from the
    transform module. *)
Record transform_collaborators (X : collaborators) := {
  ImageSize : Type;
  Pipeline : Type;
  visual_image_size : Model X -> result ImageSize;
  image_transform : ImageSize -> bool -> result Pipeline;
}.
Arguments ImageSize {X} _.
Arguments Pipeline {X} _.
Arguments visual_image_size {X} _ _.
Arguments image_transform {X} _ _ _.

Section Facade.
Variable module_dir : Path.
Variable X : collaborators.
Variable T : transform_collaborators X.

Definition create_model_and_transforms (fs : filesystem)
    (model_name pretrained precision : string) (dev : device)
    (jit force_quick_gelu : bool) : M (Model X * Pipeline T * Pipeline T) :=
  model <- create_model module_dir X fs model_name pretrained precision dev
             jit force_quick_gelu ;;
  size_train <- lift (visual_image_size T model) ;;
  preprocess_train <- lift (image_transform T size_train true) ;;
  size_val <- lift (visual_image_size T model) ;;
  preprocess_val <- lift (image_transform T size_val false) ;;
  ret (model, preprocess_train, preprocess_val).
End Facade.

(** ** More vocabulary *)

(** Events of the checkpoint lookup and load. *)
Definition is_checkpoint_io (e : event) : bool :=
  match e with
  | CallGetPretrainedUrl _ _ | CallDownloadPretrained _ | CallPathExists _
  | CallTorchLoad _ | CallModelLoadStateDict _ => true
  | _ => false
  end.

(** Events that act on a model that has been built. *)
Definition is_post_build (e : event) : bool :=
  match e with
  | CallTo _ | CallConvertWeightsToFp16 | CallJitScript => true
  | _ => false
  end.

(** [a <= b] between natural keys, read off [<]: [b] is not smaller. *)
Definition key_le (a b : natural_key) : Prop := list_lt b a = Ok false.

(** The last value a list of items gives a key. *)
Definition last_value {V : Type} (k : string) (items : list (string * V)) : option V :=
  dict_get k (rev items).

(** ** Plain names *)

(** [Str.lower], [Str.isdigit], [Str.re_split_digits] and [Str.int] follow
    [str.lower], [str.isdigit], the class [\d] and [int] on ASCII text.
    Outside ASCII the Python functions cover more: [str.lower] also maps
    letters such as 'É', [str.isdigit] also holds of '²', which [int]
    refuses with [ValueError], and [\d] also matches the decimal digits of
    other scripts.  [int] raises [ValueError] as well on a string of more
    than 4300 digits.  A plain name stays inside the range where the two
    agree: ASCII characters only, and no more of them than [int] accepts
    digits.  The statements about sort keys and lowercased paths that
    depend on that agreement are made for plain names. *)
Fixpoint is_ascii (s : string) : bool :=
  match s with
  | EmptyString => true
  | String c s' => (nat_of_ascii c <? 128)%nat && is_ascii s'
  end.

(** The default of [sys.int_max_str_digits]. *)
Definition int_max_str_digits : nat := 4300.

Definition plain_name (s : string) : bool :=
  is_ascii s && (String.length s <=? int_max_str_digits)%nat.

(** [a] stands somewhere before [b] in [l]. *)
Definition listed_before {A : Type} (a b : A) (l : list A) : Prop :=
  exists l1 l2 l3, l = (l1 ++ a :: l2 ++ b :: l3)%list.

Module Demo2.

(** Two sources that both hold a document named "ViT-B-32". *)
Definition fs_override : filesystem :=
  Demo.tree [("ViT-B-32.json", File (Document (Demo.vit_cfg 512)))]
            [("ViT-B-32.json", File (Document (Demo.vit_cfg 768)))].

(** A scan that breaks midway: two good files, then one that is not
    JSON, then another good file. *)
Definition fs_midway : filesystem :=
  Demo.tree [("ViT-B-32.json", File (Document (Demo.vit_cfg 512)));
             ("ViT-B-16.json", File (Document (Demo.vit_cfg 512)));
             ("broken.json", File Malformed);
             ("RN50.json", File (Document (Demo.vit_cfg 1024)))]
            [].

(** A source tree with a nested directory and a file of another kind. *)
Definition fs_nested : filesystem :=
  Demo.tree [("ViT-B-32.json", File (Document (Demo.vit_cfg 512)));
             ("README.md", File Malformed);
             ("old", Dir [("RN50.json", File (Document (Demo.vit_cfg 1024)))])]
            [].


(** The package directory after "ViT-B-32.json" was rewritten with a
    wider embedding and the other two configs were removed. *)
Definition fs_updated : filesystem :=
  Demo.tree [("ViT-B-32.json", File (Document (Demo.vit_cfg 768)))] [].

(** A package directory whose names need the natural order, next to a
    draft that lacks two of the required fields. *)
Definition fs_listing : filesystem :=
  Demo.tree [("model10.json", File (Document (Demo.vit_cfg 256)));
             ("ViT-B-32.json", File (Document (Demo.vit_cfg 512)));
             ("draft.json", File (Document Demo.partial_cfg));
             ("model2.json", File (Document (Demo.vit_cfg 128)));
             ("ViT-B-16.json", File (Document (Demo.vit_cfg 512)))]
            [].

(** A checkpoint path with an uppercase letter outside ASCII: 'ℂ'
    (U+2102, DOUBLE-STRUCK CAPITAL C) is uppercase for [str.isupper] and
    [str.lower] leaves it as it is.  In the byte string it is the three
    bytes of its UTF-8 form, none of them an ASCII letter. *)
Definition double_struck_path : string := "/data/ℂ.pt".

(** A world where no tag resolves to a URL and every path exists. *)
Definition world_local : collaborators := {|
  Model := list string;
  load_openai_model name _ _ := Ok ["openai"; name];
  model_float m := (m ++ ["float"])%list;
  CLIP _ := Ok ["clip"];
  get_pretrained_url _ _ := EmptyString;
  download_pretrained url := Ok ("/cache/" ++ url)%string;
  path_exists _ := true;
  torch_load _ := Ok (Mapping [("logit_scale", Tensor 1)]);
  model_load_state_dict m _ := Ok (m ++ ["weights"])%list;
  model_to m d := (m ++ [dev_type d])%list;
  convert_weights_to_fp16 m := (m ++ ["fp16"])%list;
  jit_script m := Ok (m ++ ["jit"])%list;
|}.

Definition transforms : transform_collaborators Demo.world := {|
  ImageSize := Z;
  Pipeline := Z * bool;
  visual_image_size _ := Ok 224%Z;
  image_transform size is_train := Ok (size, is_train);
|}.

End Demo2.
(** * Sanity checks on concrete inputs *)

Example re_split_ex1 :
  Str.re_split_digits "vit-b-16" = ["vit-b-"; "16"; EmptyString].
Proof. reflexivity. Qed.
Example re_split_ex2 :
  Str.re_split_digits "a1b22c" = ["a"; "1"; "b"; "22"; "c"].
Proof. reflexivity. Qed.
Example re_split_ex3 : Str.re_split_digits "12" = [EmptyString; "12"; EmptyString].
Proof. reflexivity. Qed.
Example re_split_ex4 : Str.re_split_digits "abc" = ["abc"].
Proof. reflexivity. Qed.
Example re_split_ex5 : Str.re_split_digits EmptyString = [EmptyString].
Proof. reflexivity. Qed.
Example lower_ex : Str.lower "ViT-B-32" = "vit-b-32".
Proof. reflexivity. Qed.
Example natural_key_ex1 :
  _natural_key "ViT-B-16" = [KStr "vit-b-"; KInt 16; KStr EmptyString].
Proof. reflexivity. Qed.
Example natural_key_ex2 :
  list_lt (_natural_key "model2") (_natural_key "model10") = Ok true.
Proof. reflexivity. Qed.
Example natural_key_ex3 :
  list_lt (_natural_key "model10") (_natural_key "model2") = Ok false.
Proof. reflexivity. Qed.
Example sorted_ex1 :
  sorted list_lt _natural_key ["ViT-B-32"; "ViT-B-16"; "model10"; "model2"; "RN50"]
  = Ok ["model2"; "model10"; "RN50"; "ViT-B-16"; "ViT-B-32"].
Proof. reflexivity. Qed.
Example stem_ex1 : PathOps.stem ["cfg"; "ViT-B-32.json"] = "ViT-B-32".
Proof. reflexivity. Qed.
Example suffix_ex1 : PathOps.suffix ["cfg"; "ViT-B-32.json"] = ".json".
Proof. reflexivity. Qed.
Example stem_ex2 : PathOps.stem ["cfg"; ".json"] = ".json".
Proof. reflexivity. Qed.
Example stem_ex3 : PathOps.stem ["a.b.json"] = "a.b".
Proof. reflexivity. Qed.

(** * Properties of the model builder *)

Section HeapFacts.
Implicit Types (h : list json) (v : json) (l : loc).

Lemma read_heap_alloc h v : read_heap (h ++ [v]) (length h) = v.
Proof. unfold read_heap. by rewrite list_lookup_middle. Qed.

Lemma read_heap_store_alloc h v w :
  read_heap (<[length h := w]> (h ++ [v])) (length h) = w.
Proof.
  unfold read_heap. rewrite list_lookup_insert_eq; [done|].
  rewrite length_app. simpl. lia.
Qed.

Lemma lookup_alloc_old h v l : l < length h -> (h ++ [v]) !! l = h !! l.
Proof. intros Hl. by rewrite lookup_app_l. Qed.

Lemma lookup_store_alloc_old h v w l :
  l < length h -> <[length h := w]> (h ++ [v]) !! l = h !! l.
Proof.
  intros Hl. rewrite list_lookup_insert_ne by lia. by apply lookup_alloc_old.
Qed.
End HeapFacts.

(** Case analysis along the control flow of [create_model]. *)
Ltac builder_case :=
  match goal with
  | |- context [match ?x with _ => _ end] =>
      match type of x with
      | result _ => destruct x eqn:?
      | option _ => destruct x eqn:?
      | bool => destruct x eqn:?
      | json => destruct x eqn:?
      end
  end.

Ltac builder_simpl :=
  cbn [heap _MODEL_CONFIGS _MODEL_CONFIG_PATHS trace fst snd];
  rewrite ?read_heap_alloc, ?read_heap_store_alloc.

Ltac run_builder :=
  unfold create_model, bind, emit, get_configs, deepcopy, bind, deref, alloc,
    store, lift, ret, raise;
  builder_simpl;
  repeat (builder_case; builder_simpl).

(** The events appended to [trace st] are exactly [evs]. *)
Ltac trace_is :=
  cbn [trace]; rewrite <- ?app_assoc; cbn [app]; reflexivity.

(** [C6] A call whose pretrained source is "openai" up to letter case runs
    the original-provider branch: [load_openai_model] is called, no event
    of the call reads the registry, the module state is left as it was, and
    the outcome is the same whatever the registry and the filesystem hold. *)
Theorem create_model_openai_branch
    (module_dir : Path) (X : collaborators) (fs : filesystem) (st : state)
    (model_name pretrained precision : string) (dev : device)
    (jit force_quick_gelu : bool) :
  Str.lower pretrained = "openai" ->
  let out := create_model module_dir X fs model_name pretrained precision dev
               jit force_quick_gelu st in
  exists evs : list event,
    trace (snd out) = (trace st ++ evs)%list
    /\ In (CallLoadOpenai model_name dev jit) evs
    /\ Forall (fun e => is_registry_access e = false) evs
    /\ heap (snd out) = heap st
    /\ _MODEL_CONFIGS (snd out) = _MODEL_CONFIGS st
    /\ _MODEL_CONFIG_PATHS (snd out) = _MODEL_CONFIG_PATHS st
    /\ forall (module_dir2 : Path) (fs2 : filesystem) (st2 : state),
         fst (create_model module_dir2 X fs2 model_name pretrained precision dev
                jit force_quick_gelu st2) = fst out.
Proof.
  intros Hp out. subst out. unfold create_model. rewrite Hp.
  change ("openai" =? "openai")%string with true. cbv iota.
  run_builder.
  all: eexists; split; [trace_is|].
  all: split; [simpl; tauto|].
  all: split; [repeat constructor|].
  all: repeat split; intros; reflexivity.
Qed.

Lemma create_model_openai_branch_witness :
  Str.lower "OpenAI" = "openai"
  /\ exists evs : list event,
       trace (snd (create_model Demo.pkg Demo.world Demo.fs_shipped "ViT-B-32" "OpenAI"
                     "fp32" cpu false false Demo.booted))
       = (trace Demo.booted ++ evs)%list
       /\ In (CallLoadOpenai "ViT-B-32" cpu false) evs
       /\ Forall (fun e => is_registry_access e = false) evs.
Proof.
  split; [reflexivity|].
  destruct (create_model_openai_branch Demo.pkg Demo.world Demo.fs_shipped Demo.booted
              "ViT-B-32" "OpenAI" "fp32" cpu false false eq_refl)
    as (evs & Htrace & Hin & Hreg & _).
  exists evs. repeat split; assumption.
Defined.

(** [C5, as amended] For a name absent from the registry and a pretrained
    source other than "openai" (letter case apart), [create_model] first
    builds the diagnostic listing with [list_models]: when the listing
    succeeds the call logs it and raises the configuration-not-found error;
    when the listing itself raises, that error is the one that propagates.
    In both cases no event of the call constructs a model and the heap and
    the registry are unchanged. *)
Theorem create_model_unknown_name
    (module_dir : Path) (X : collaborators) (fs : filesystem) (st : state)
    (model_name pretrained precision : string) (dev : device)
    (jit force_quick_gelu : bool) :
  Str.lower pretrained <> "openai" ->
  dict_get model_name (_MODEL_CONFIGS st) = None ->
  let out := create_model module_dir X fs model_name pretrained precision dev
               jit force_quick_gelu st in
  exists evs : list event,
    trace (snd out) = (trace st ++ evs)%list
    /\ match list_models module_dir fs with
       | Ok available =>
           fst out = Raise (config_not_found model_name)
           /\ evs = [RegistryContains model_name; LogError model_name available]
       | Raise e =>
           fst out = Raise e /\ evs = [RegistryContains model_name]
       end
    /\ Forall (fun e => constructs_model e = false) evs
    /\ heap (snd out) = heap st
    /\ _MODEL_CONFIGS (snd out) = _MODEL_CONFIGS st.
Proof.
  intros Hp Hname out. subst out.
  apply String.eqb_neq in Hp.
  unfold create_model. rewrite Hp. cbv iota.
  unfold bind, emit, get_configs, lift, raise.
  cbn [_MODEL_CONFIGS trace heap _MODEL_CONFIG_PATHS]. rewrite Hname.
  destruct (list_models module_dir fs) as [available|e];
    cbn [fst snd trace heap _MODEL_CONFIGS].
  - exists [RegistryContains model_name; LogError model_name available].
    split; [trace_is|]. repeat split; repeat constructor.
  - exists [RegistryContains model_name].
    split; [trace_is|]. repeat split; repeat constructor.
Qed.

Lemma create_model_unknown_name_witness :
  Str.lower EmptyString <> "openai"
  /\ dict_get "ViT-H-14" (_MODEL_CONFIGS Demo.booted) = None
  /\ fst (create_model Demo.pkg Demo.world Demo.fs_shipped "ViT-H-14" EmptyString "fp32" cpu
            false false Demo.booted)
     = Raise (config_not_found "ViT-H-14").
Proof.
  assert (Hp : Str.lower EmptyString <> "openai") by discriminate.
  assert (Hn : dict_get "ViT-H-14" (_MODEL_CONFIGS Demo.booted) = None) by reflexivity.
  split; [exact Hp|]. split; [exact Hn|].
  destruct (create_model_unknown_name Demo.pkg Demo.world Demo.fs_shipped Demo.booted
              "ViT-H-14" EmptyString "fp32" cpu false false Hp Hn) as (evs & _ & Hcase & _).
  change (list_models Demo.pkg Demo.fs_shipped)
    with (Ok ["RN50"; "ViT-B-16"; "ViT-B-32"] : result (list string)) in Hcase.
  exact (proj1 Hcase).
Defined.

(** [C5, as stated, fails] The registry was populated from the shipped
    package directory; a file that is not JSON then appears there.  A call
    for an unknown name now ends in the parser's error raised inside
    [list_models], not in the configuration-not-found error. *)
Lemma create_model_unknown_name_counterexample :
  fst (import_module Demo.pkg Demo.fs_shipped) = Ok tt
  /\ dict_get "ViT-H-14" (_MODEL_CONFIGS Demo.booted) = None
  /\ Str.lower EmptyString <> "openai"
  /\ fst (create_model Demo.pkg Demo.world Demo.fs_stray "ViT-H-14" EmptyString "fp32" cpu
            false false Demo.booted)
     = Raise JSONDecodeError
  /\ fst (create_model Demo.pkg Demo.world Demo.fs_stray "ViT-H-14" EmptyString "fp32" cpu
            false false Demo.booted)
     <> Raise (config_not_found "ViT-H-14").
Proof.
  split; [reflexivity|]. split; [reflexivity|]. split; [discriminate|].
  split; [reflexivity|]. discriminate.
Qed.





(** The same request reaches the device move and stops at the assertion. *)
Example fp16_on_cpu_run :
  create_model Demo.pkg Demo.world Demo.fs_shipped "ViT-B-32" EmptyString "fp16" cpu
    false false (mkState [Demo.vit_cfg 512] [] [("ViT-B-32", 0)] [])
  = (Raise AssertionError,
     mkState [Demo.vit_cfg 512; Demo.vit_cfg 512] [] [("ViT-B-32", 0)]
       [RegistryContains "ViT-B-32";
        LogInfo "Loading ViT-B-32 model config.";
        RegistryGet "ViT-B-32";
        CallCLIP (Demo.vit_cfg 512);
        CallTo cpu]).
Proof. reflexivity. Qed.

(** On an accelerator the conversion does run. *)
Example fp16_on_cuda_run :
  fst (create_model Demo.pkg Demo.world Demo.fs_shipped "ViT-B-32" EmptyString "fp16" Demo.cuda
         false false (mkState [Demo.vit_cfg 512] [] [("ViT-B-32", 0)] []))
  = Ok ["clip"; "cuda"; "fp16"].
Proof. reflexivity. Qed.

(** The registry's content depends only on the objects it refers to. *)
Lemma registry_view_frame (st st' : state) :
  registry_wf st ->
  _MODEL_CONFIGS st' = _MODEL_CONFIGS st ->
  (forall l : loc, l < length (heap st) -> heap st' !! l = heap st !! l) ->
  registry_view st' = registry_view st.
Proof.
  unfold registry_wf, registry_view. intros Hwf -> Hframe.
  induction Hwf as [|[name l] cs Hl _ IH]; [reflexivity|].
  cbn [map]. rewrite IH. unfold on_value, read_heap. cbn [fst snd] in *.
  by rewrite (Hframe l Hl).
Qed.

Lemma registry_wf_frame (st st' : state) :
  registry_wf st ->
  _MODEL_CONFIGS st' = _MODEL_CONFIGS st ->
  length (heap st) <= length (heap st') ->
  registry_wf st'.
Proof.
  unfold registry_wf. intros Hwf -> Hlen.
  eapply Forall_impl; [exact Hwf|]. cbn. intros; lia.
Qed.

(** [C8] [create_model] leaves the registry as it found it: the global
    still maps the same names to the same objects, every object that
    existed before the call still holds the same document, hence the
    registry's content is unchanged.  With the force-quick-gelu flag, the
    field is written to the object made by [deepcopy], which sits at a
    fresh heap location. *)
Theorem create_model_preserves_registry
    (module_dir : Path) (X : collaborators) (fs : filesystem) (st : state)
    (model_name pretrained precision : string) (dev : device)
    (jit force_quick_gelu : bool) :
  registry_wf st ->
  let st' := snd (create_model module_dir X fs model_name pretrained precision dev
                    jit force_quick_gelu st) in
  _MODEL_CONFIGS st' = _MODEL_CONFIGS st
  /\ _MODEL_CONFIG_PATHS st' = _MODEL_CONFIG_PATHS st
  /\ (forall l : loc, l < length (heap st) -> heap st' !! l = heap st !! l)
  /\ registry_view st' = registry_view st
  /\ registry_wf st'
  /\ (forall (entry : loc) (fields : list (string * json)),
        Str.lower pretrained <> "openai" ->
        force_quick_gelu = true ->
        dict_get model_name (_MODEL_CONFIGS st) = Some entry ->
        read_heap (heap st) entry = JObj fields ->
        heap st' !! length (heap st)
        = Some (JObj (dict_set "quick_gelu" (JBool true) fields))).
Proof.
  intros Hwf st'.
  assert (Hcore :
    _MODEL_CONFIGS st' = _MODEL_CONFIGS st
    /\ _MODEL_CONFIG_PATHS st' = _MODEL_CONFIG_PATHS st
    /\ length (heap st) <= length (heap st')
    /\ forall l : loc, l < length (heap st) -> heap st' !! l = heap st !! l).
  { subst st'. run_builder.
    all: split; [reflexivity|]. all: split; [reflexivity|].
    all: split;
      [ rewrite ?length_insert, ?length_app; cbn [length]; lia
      | intros l' Hl';
        first [ reflexivity
              | by apply lookup_store_alloc_old
              | by apply lookup_alloc_old ] ]. }
  destruct Hcore as (Hcs & Hps & Hlen & Hframe).
  split; [exact Hcs|]. split; [exact Hps|]. split; [exact Hframe|].
  split; [by apply registry_view_frame|].
  split; [by eapply registry_wf_frame|].
  intros entry fields Hp -> Hentry Hdoc. subst st'.
  apply String.eqb_neq in Hp.
  unfold create_model. rewrite Hp. cbv iota.
  unfold bind, emit, get_configs, deepcopy, bind, deref, alloc, store, lift, ret, raise.
  cbn [heap _MODEL_CONFIGS _MODEL_CONFIG_PATHS trace fst snd].
  rewrite Hentry. builder_simpl. rewrite Hdoc.
  cbn [json_setitem]. builder_simpl.
  assert (Hcell :
    <[length (heap st) := JObj (dict_set "quick_gelu" (JBool true) fields)]>
      (heap st ++ [JObj fields]) !! length (heap st)
    = Some (JObj (dict_set "quick_gelu" (JBool true) fields))).
  { apply list_lookup_insert_eq. rewrite length_app. cbn [length]. lia. }
  repeat (builder_case; builder_simpl); exact Hcell.
Qed.

Lemma create_model_preserves_registry_witness :
  registry_wf Demo.booted
  /\ registry_view
       (snd (create_model Demo.pkg Demo.world Demo.fs_shipped "ViT-B-32" EmptyString "fp32" cpu
               false true Demo.booted))
     = registry_view Demo.booted.
Proof.
  assert (Hwf : registry_wf Demo.booted).
  { unfold registry_wf. cbn. repeat constructor. }
  split; [exact Hwf|].
  exact (proj1 (proj2 (proj2 (proj2
    (create_model_preserves_registry Demo.pkg Demo.world Demo.fs_shipped Demo.booted
       "ViT-B-32" EmptyString "fp32" cpu false true Hwf))))).
Defined.

(** With the flag set, the copy gets the field and the entry does not. *)
Example force_quick_gelu_run :
  let st' := snd (create_model Demo.pkg Demo.world Demo.fs_shipped "ViT-B-32" EmptyString "fp32"
                    cpu false true
                    (mkState [Demo.partial_cfg] [] [("ViT-B-32", 0)] [])) in
  heap st' = [Demo.partial_cfg;
              JObj [("embed_dim", JInt 512); ("quick_gelu", JBool true)]]
  /\ _MODEL_CONFIGS st' = [("ViT-B-32", 0)].
Proof. split; reflexivity. Qed.

(** * Lowercasing of the pretrained source *)

Lemma char_lower_changes_upper (c : ascii) :
  Str.is_upper c = true -> Str.char_lower c <> c.
Proof.
  destruct c as [[] [] [] [] [] [] [] []]; vm_compute; intros Hup Heq;
    discriminate.
Qed.

Lemma lower_changes_upper (s : string) :
  Str.has_upper s = true -> Str.lower s <> s.
Proof.
  induction s as [|c s IH]; cbn [Str.has_upper Str.lower]; [discriminate|].
  intros Hup Heq. injection Heq as Hc Hs.
  apply orb_true_iff in Hup as [Hup|Hup].
  - by apply (char_lower_changes_upper c).
  - by apply IH.
Qed.

(** [C10, as amended] [create_model] rebinds [pretrained] to its lowercase
    form before any use.  When the local-path fallback finds the tested
    path, that path is the one the checkpoint is loaded from.  For an
    identifier with an ASCII uppercase letter ('A' to 'Z') the path tested
    is never the identifier the caller passed.  For a plain identifier the
    string handed to [get_pretrained_url] and the path tested with
    [os.path.exists] are the identifier with its letters 'A' to 'Z' replaced
    by 'a' to 'z'. *)
Theorem create_model_lowercases_pretrained
    (module_dir : Path) (X : collaborators) (fs : filesystem) (st : state)
    (model_name pretrained precision : string) (dev : device)
    (jit force_quick_gelu : bool) :
  let out := create_model module_dir X fs model_name pretrained precision dev
               jit force_quick_gelu st in
  exists evs : list event,
    trace (snd out) = (trace st ++ evs)%list
    /\ (forall p, In (CallPathExists p) evs -> path_exists X p = true ->
                  In (CallTorchLoad p) evs)
    /\ (Str.has_upper pretrained = true ->
        forall p, In (CallPathExists p) evs -> p <> pretrained)
    /\ (plain_name pretrained = true ->
        (forall name p, In (CallGetPretrainedUrl name p) evs -> p = Str.lower pretrained)
        /\ (forall p, In (CallPathExists p) evs -> p = Str.lower pretrained)).
Proof.
  intros out. subst out.
  assert (Hdiff : Str.has_upper pretrained = true -> Str.lower pretrained <> pretrained)
    by apply lower_changes_upper.
  run_builder.
  all: eexists; split; [trace_is|].
  all: split;
    [ simpl In; intros p Hin Hex;
      repeat match goal with
             | H : _ \/ _ |- _ => destruct H
             | H : False |- _ => destruct H
             | H : CallPathExists _ = CallPathExists _ |- _ =>
                 injection H as <-
             | H : _ = CallPathExists _ |- _ => discriminate H
             end;
      first [ tauto | congruence | idtac ]
    | ].
  all: split;
    [ simpl In; intros Hup p Hin;
      assert (p = Str.lower pretrained) as -> by (intuition congruence);
      by apply Hdiff
    | ].
  all: intros _; split;
    [ simpl In; intros name p Hin; intuition congruence
    | simpl In; intros p Hin; intuition congruence ].
Qed.

Lemma create_model_lowercases_pretrained_witness :
  Str.has_upper "/CKPT/Epoch_1.pt" = true
  /\ plain_name "/CKPT/Epoch_1.pt" = true
  /\ exists evs : list event,
       trace (snd (create_model Demo.pkg Demo.world Demo.fs_shipped "ViT-B-32"
                     "/CKPT/Epoch_1.pt" "fp32" cpu false false Demo.booted))
       = (trace Demo.booted ++ evs)%list
       /\ In (CallPathExists "/ckpt/epoch_1.pt") evs
       /\ In (CallTorchLoad "/ckpt/epoch_1.pt") evs
       /\ (forall p, In (CallPathExists p) evs -> p <> "/CKPT/Epoch_1.pt")
       /\ (forall p, In (CallPathExists p) evs -> p = "/ckpt/epoch_1.pt").
Proof.
  split; [reflexivity|]. split; [reflexivity|].
  destruct (create_model_lowercases_pretrained Demo.pkg Demo.world Demo.fs_shipped
              Demo.booted "ViT-B-32" "/CKPT/Epoch_1.pt" "fp32" cpu false false)
    as (evs & Htrace & Hload & Hdiff & Hlower).
  exists evs.
  assert (Hin : In (CallPathExists "/ckpt/epoch_1.pt") evs).
  { pose proof Htrace as Hrun. vm_compute in Hrun. subst evs. cbn. tauto. }
  split; [exact Htrace|]. split; [exact Hin|].
  split; [exact (Hload _ Hin eq_refl)|].
  split; [exact (Hdiff eq_refl)|].
  exact (proj2 (Hlower eq_refl)).
Defined.

(** [C10, as stated, fails] An identifier with an uppercase character whose
    path is tested and loaded exactly as passed: 'ℂ' is an uppercase
    letter, lowercasing changes nothing in "/data/ℂ.pt", and the call
    tests that very path and loads the checkpoint from it. *)
Lemma create_model_lowercases_pretrained_counterexample :
  Str.lower Demo2.double_struck_path = Demo2.double_struck_path
  /\ is_ascii Demo2.double_struck_path = false
  /\ create_model Demo.pkg Demo2.world_local Demo.fs_shipped "ViT-B-32"
       Demo2.double_struck_path "fp32" cpu false false
       (mkState [Demo.vit_cfg 512] [] [("ViT-B-32", 0)] [])
     = (Ok ["clip"; "weights"; "cpu"],
        mkState [Demo.vit_cfg 512; Demo.vit_cfg 512] [] [("ViT-B-32", 0)]
          [RegistryContains "ViT-B-32";
           LogInfo "Loading ViT-B-32 model config.";
           RegistryGet "ViT-B-32";
           CallCLIP (Demo.vit_cfg 512);
           CallGetPretrainedUrl "ViT-B-32" Demo2.double_struck_path;
           CallPathExists Demo2.double_struck_path;
           LogInfo ("Loading pretrained ViT-B-32 weights ("
                    ++ Demo2.double_struck_path ++ ").");
           CallTorchLoad Demo2.double_struck_path;
           CallModelLoadStateDict (Mapping [("logit_scale", Tensor 1)]);
           CallTo cpu]).
Proof. split; [reflexivity|]. split; reflexivity. Qed.

(** A checkpoint stored under a mixed-case path is looked up, and missed,
    under the lowercased one. *)
Example mixed_case_path_run :
  let X := {| Model := unit;
              load_openai_model _ _ _ := Raise (CollaboratorError "unused");
              model_float m := m;
              CLIP _ := Ok tt;
              get_pretrained_url _ _ := EmptyString;
              download_pretrained _ := Raise (CollaboratorError "unused");
              path_exists p := String.eqb p "/data/Run7/epoch.pt";
              torch_load _ := Ok (Mapping [("w", Tensor 0)]);
              model_load_state_dict m _ := Ok m;
              model_to m _ := m;
              convert_weights_to_fp16 m := m;
              jit_script m := Ok m |} in
  fst (create_model Demo.pkg X Demo.fs_shipped "ViT-B-32" "/data/Run7/epoch.pt"
         "fp32" cpu false false Demo.booted)
  = Raise (weights_not_found "/data/run7/epoch.pt" "ViT-B-32").
Proof. reflexivity. Qed.

(** * Python dicts as association lists *)

Section DictFacts.
Context {V : Type}.
Implicit Types (d items : list (string * V)) (k : string) (v : V).

Lemma dict_get_None_keys d k : dict_get k d = None <-> ~ In k (dict_keys d).
Proof.
  induction d as [|[k' v'] d IH]; cbn; [tauto|].
  destruct (String.eqb_spec k' k) as [->|Hne].
  - split; [discriminate|]. intros H. destruct H. by left.
  - rewrite IH. tauto.
Qed.

Lemma dict_get_Some_In d k v : dict_get k d = Some v -> In (k, v) d.
Proof.
  induction d as [|[k' v'] d IH]; cbn; [discriminate|].
  destruct (String.eqb_spec k' k) as [->|Hne].
  - intros [= ->]. by left.
  - intros H. right. by apply IH.
Qed.

Lemma dict_get_In_NoDup d k v :
  List.NoDup (dict_keys d) -> In (k, v) d -> dict_get k d = Some v.
Proof.
  induction d as [|[k' v'] d IH]; cbn; [tauto|].
  intros Hnd Hin. apply List.NoDup_cons_iff in Hnd as [Hk' Hnd].
  destruct Hin as [[= -> ->]|Hin].
  - by rewrite String.eqb_refl.
  - destruct (String.eqb_spec k' k) as [->|Hne]; [|by apply IH].
    destruct Hk'. change (In (fst (k, v)) (map fst d)). by apply in_map.
Qed.

Lemma dict_set_fresh d k v : dict_get k d = None -> dict_set k v d = d ++ [(k, v)].
Proof.
  induction d as [|[k' v'] d IH]; cbn; [done|].
  destruct (String.eqb k' k); [discriminate|].
  intros H. by rewrite IH.
Qed.

Lemma dict_set_same d k v : dict_get k d = Some v -> dict_set k v d = d.
Proof.
  induction d as [|[k' v'] d IH]; cbn; [discriminate|].
  destruct (String.eqb_spec k' k) as [->|Hne].
  - by intros [= ->].
  - intros H. by rewrite IH.
Qed.

Lemma dict_get_set d k v k' :
  dict_get k' (dict_set k v d) = if String.eqb k k' then Some v else dict_get k' d.
Proof.
  induction d as [|[k0 v0] d IH]; cbn.
  - done.
  - destruct (String.eqb_spec k0 k) as [->|Hne]; cbn.
    + destruct (String.eqb k k'); done.
    + rewrite IH. destruct (String.eqb_spec k k') as [->|Hne'].
      * by apply String.eqb_neq in Hne as ->.
      * done.
Qed.

Lemma dict_keys_set d k v :
  dict_keys (dict_set k v d)
  = if dict_contains k d then dict_keys d else dict_keys d ++ [k].
Proof.
  unfold dict_contains, dict_keys.
  induction d as [|[k0 v0] d IH]; cbn; [done|].
  destruct (String.eqb_spec k0 k) as [->|Hne]; cbn; [done|].
  rewrite IH. by destruct (dict_get k d).
Qed.

Lemma dict_set_nonempty d k v : dict_set k v d <> [].
Proof. destruct d as [|[k' v'] d]; cbn; [|destruct (String.eqb k' k)]; discriminate. Qed.

Lemma dict_keys_set_NoDup d k v :
  List.NoDup (dict_keys d) -> List.NoDup (dict_keys (dict_set k v d)).
Proof.
  intros Hnd. rewrite dict_keys_set. unfold dict_contains.
  destruct (dict_get k d) eqn:Hk; [done|].
  apply dict_get_None_keys in Hk.
  apply (Permutation_NoDup (l := k :: dict_keys d)).
  - apply Permutation_cons_append.
  - by apply List.NoDup_cons.
Qed.

Lemma dict_update_nonempty d items : d ++ items <> [] -> dict_update d items <> [].
Proof.
  unfold dict_update. revert d.
  induction items as [|[k v] items IH]; intros d Hne; cbn.
  - by rewrite app_nil_r in Hne.
  - apply IH. intros H. apply app_eq_nil in H as [H _].
    by apply dict_set_nonempty in H.
Qed.

(** Inserting items with new, pairwise distinct keys appends them. *)
Lemma dict_update_fresh d items :
  List.NoDup (dict_keys (d ++ items)) -> dict_update d items = d ++ items.
Proof.
  unfold dict_update. revert d.
  induction items as [|[k v] items IH]; intros d Hnd; cbn.
  - by rewrite app_nil_r.
  - assert (Hk : dict_get k d = None).
    { apply dict_get_None_keys. intros Hin.
      unfold dict_keys in Hnd. rewrite map_app in Hnd. cbn in Hnd.
      apply List.NoDup_remove_2 in Hnd. apply Hnd. apply in_or_app. by left. }
    rewrite (dict_set_fresh _ _ _ Hk), IH.
    + by rewrite <- app_assoc.
    + by rewrite <- app_assoc.
Qed.

Lemma dict_update_keys_NoDup d items :
  List.NoDup (dict_keys d) -> List.NoDup (dict_keys (dict_update d items)).
Proof.
  unfold dict_update. revert d.
  induction items as [|[k v] items IH]; intros d Hnd; cbn; [done|].
  apply IH. by apply dict_keys_set_NoDup.
Qed.
End DictFacts.

(** * Properties of the checkpoint loader *)

Lemma startswith_app (s p q : string) :
  Str.startswith s (p ++ q) = true -> Str.startswith s p = true.
Proof.
  revert s. induction p as [|a p IH]; intros s; [by destruct s|].
  destruct s as [|b s]; cbn; [done|].
  intros [Hab Hrest]%andb_true_iff. rewrite Hab. cbn. by apply IH.
Qed.

Lemma startswith_module_dot (k : string) :
  Str.startswith k "module." = true -> Str.startswith k "module" = true.
Proof. apply (startswith_app k "module" "."). Qed.

(** [C9] A checkpoint whose parameter mapping (after the "state_dict"
    unwrapping) is empty makes [load_state_dict] raise at the first-key
    probe, and whatever [load_state_dict] returns is a mapping with at
    least one item: an empty mapping is never produced. *)
Theorem load_state_dict_never_empty
    (torch_load : string -> result pyobj) (checkpoint_path : string) :
  (forall checkpoint : pyobj,
      torch_load checkpoint_path = Ok checkpoint ->
      select_state_dict checkpoint = Mapping [] ->
      load_state_dict torch_load checkpoint_path = Raise StopIteration)
  /\ (forall state_dict : pyobj,
        load_state_dict torch_load checkpoint_path = Ok state_dict ->
        exists item rest, state_dict = Mapping (item :: rest)).
Proof.
  unfold load_state_dict. split.
  - intros checkpoint -> Hsel. cbn. by rewrite Hsel.
  - intros state_dict. destruct (torch_load checkpoint_path) as [checkpoint|e];
      cbn [rbind]; [|discriminate].
    destruct (select_state_dict checkpoint) as [t|items|tag];
      cbn [strip_module_prefix]; try discriminate.
    destruct items as [|[first_key v] rest]; [discriminate|].
    destruct (Str.startswith first_key "module").
    + pose proof (dict_update_nonempty [] (map strip_key ((first_key, v) :: rest)))
        as Hne.
      destruct (dict_update [] (map strip_key ((first_key, v) :: rest)))
        as [|item rest'].
      * exfalso. apply Hne; [discriminate|reflexivity].
      * intros [= <-]. exists item, rest'. reflexivity.
    + intros [= <-]. exists (first_key, v), rest. reflexivity.
Qed.

Lemma load_state_dict_never_empty_witness :
  Demo.torch_load_of Demo.hollow_checkpoint "empty.pt" = Ok Demo.hollow_checkpoint
  /\ select_state_dict Demo.hollow_checkpoint = Mapping []
  /\ load_state_dict (Demo.torch_load_of Demo.hollow_checkpoint) "empty.pt"
     = Raise StopIteration.
Proof.
  split; [reflexivity|]. split; [reflexivity|].
  exact (proj1 (load_state_dict_never_empty
                  (Demo.torch_load_of Demo.hollow_checkpoint) "empty.pt")
               Demo.hollow_checkpoint eq_refl eq_refl).
Defined.

(** [C2, as amended] The loader works on the mapping under "state_dict"
    when the deserialized object is a mapping that has this key, and on the
    object itself when it is a mapping without it.  For a non-empty
    mapping: when the first key starts with "module." the result is the
    dict rebuilt with the first seven characters dropped from every key
    (the same items in the same order when the shortened keys are pairwise
    distinct); when the first key does not start with "module" the result
    is that mapping itself.  An empty mapping makes the loader raise. *)
Theorem load_state_dict_canonical
    (torch_load : string -> result pyobj) (checkpoint_path : string)
    (checkpoint : pyobj) :
  torch_load checkpoint_path = Ok checkpoint ->
  (forall items inner,
      checkpoint = Mapping items ->
      dict_get "state_dict" items = Some inner ->
      select_state_dict checkpoint = inner)
  /\ (forall items,
        checkpoint = Mapping items ->
        dict_get "state_dict" items = None ->
        select_state_dict checkpoint = checkpoint)
  /\ (forall first_key v rest,
        select_state_dict checkpoint = Mapping ((first_key, v) :: rest) ->
        Str.startswith first_key "module." = true ->
        load_state_dict torch_load checkpoint_path
        = Ok (Mapping (dict_update [] (map strip_key ((first_key, v) :: rest))))
        /\ (List.NoDup (dict_keys (map strip_key ((first_key, v) :: rest))) ->
            load_state_dict torch_load checkpoint_path
            = Ok (Mapping (map strip_key ((first_key, v) :: rest)))))
  /\ (forall first_key v rest,
        select_state_dict checkpoint = Mapping ((first_key, v) :: rest) ->
        Str.startswith first_key "module" = false ->
        load_state_dict torch_load checkpoint_path = Ok (select_state_dict checkpoint))
  /\ (select_state_dict checkpoint = Mapping [] ->
      load_state_dict torch_load checkpoint_path = Raise StopIteration).
Proof.
  intros Hload. unfold load_state_dict. rewrite Hload. cbn [rbind].
  split; [|split; [|split; [|split]]].
  - intros items inner -> Hget. cbn. by rewrite Hget.
  - intros items -> Hget. cbn. by rewrite Hget.
  - intros first_key v rest -> Hprefix.
    apply startswith_module_dot in Hprefix.
    cbn [strip_module_prefix]. rewrite Hprefix.
    split; [reflexivity|]. intros Hnd.
    by rewrite (dict_update_fresh [] _ Hnd).
  - intros first_key v rest Hsel Hprefix. rewrite Hsel.
    cbn [strip_module_prefix]. by rewrite Hprefix.
  - by intros ->.
Qed.

Lemma load_state_dict_canonical_witness :
  Demo.torch_load_of Demo.training_checkpoint "epoch_3.pt" = Ok Demo.training_checkpoint
  /\ load_state_dict (Demo.torch_load_of Demo.training_checkpoint) "epoch_3.pt"
     = Ok (Mapping [("visual.proj", Tensor 1); ("logit_scale", Tensor 2)]).
Proof.
  split; [reflexivity|].
  destruct (load_state_dict_canonical (Demo.torch_load_of Demo.training_checkpoint)
              "epoch_3.pt" Demo.training_checkpoint eq_refl)
    as (_ & _ & Hstrip & _).
  destruct (Hstrip "module.visual.proj" (Tensor 1) [("module.logit_scale", Tensor 2)]
              eq_refl eq_refl) as [_ Hnodup].
  apply Hnodup. cbn. repeat constructor; cbn; intuition discriminate.
Defined.

(** [C2, as stated, fails] The empty mapping has neither the wrapper key
    nor a prefixed first key, yet the loader does not return it: the probe
    of the first key raises. *)
Lemma load_state_dict_canonical_counterexample :
  dict_get "state_dict" ([] : list (string * pyobj)) = None
  /\ load_state_dict (Demo.torch_load_of (Mapping [])) "fresh.pt" = Raise StopIteration
  /\ load_state_dict (Demo.torch_load_of (Mapping [])) "fresh.pt" <> Ok (Mapping []).
Proof. cbn. repeat split; discriminate. Qed.

(** The prefix test looks at six characters and the slice drops seven: a
    first key that starts with "module" but not with "module." loses its
    first seven characters all the same. *)
Example load_state_dict_prefix_without_dot :
  load_state_dict
    (fun _ => Ok (Mapping [("modules.0.weight", Tensor 1); ("head.bias", Tensor 2)]))
    "model.pt"
  = Ok (Mapping [(".0.weight", Tensor 1); ("as", Tensor 2)]).
Proof. reflexivity. Qed.

(** Keys that collide once shortened are merged, the last value kept. *)
Example load_state_dict_collision :
  load_state_dict
    (fun _ => Ok (Mapping [("module.w", Tensor 1); ("MODULE.w", Tensor 2)]))
    "model.pt"
  = Ok (Mapping [("w", Tensor 2)]).
Proof. reflexivity. Qed.

(** * The natural sort key *)

Section KeyShape.

Lemma no_digits_not_isdigit (s : string) : no_digits s = true -> Str.isdigit s = false.
Proof.
  destruct s as [|c s]; cbn; [done|].
  intros [Hc _]%andb_true_iff. apply negb_true_iff in Hc. by rewrite Hc.
Qed.

Lemma isdigit_all_digits (s : string) : Str.isdigit s = true -> Str.all_digits s = true.
Proof. by destruct s. Qed.

Lemma re_split_digits_shape (s : string) :
  exists t0 rest,
    Str.re_split_digits s = t0 :: rest /\ pieces_ok true (t0 :: rest).
Proof.
  induction s as [|c s (t0 & rest & Heq & Ht0 & Hrest)].
  - exists EmptyString, []. by cbn.
  - cbn [Str.re_split_digits]. rewrite Heq.
    destruct (Str.is_digit c) eqn:Hc.
    + destruct t0 as [|c0 t0'].
      * destruct rest as [|d rest'].
        -- eexists _, _. split; [reflexivity|]. cbn. by rewrite Hc.
        -- eexists _, _. split; [reflexivity|].
           destruct Hrest as [Hd Hrest']. cbn in Hd, Hrest'.
           split; [done|]. split; [|done].
           cbn. rewrite Hc. by apply isdigit_all_digits.
      * eexists _, _. split; [reflexivity|].
        split; [done|]. split; [cbn; by rewrite Hc|].
        split; [exact Ht0|exact Hrest].
    + eexists _, _. split; [reflexivity|].
      split; [|exact Hrest]. cbn. by rewrite Hc.
Qed.

Lemma pieces_key_alternating (text : bool) (pieces : list string) :
  pieces_ok text pieces ->
  alternating text
    (map (fun s => if Str.isdigit s then KInt (Str.int s) else KStr s) pieces).
Proof.
  revert text. induction pieces as [|p rest IH]; intros text; [done|].
  intros [Hp Hrest]. cbn [map alternating]. destruct text.
  - rewrite (no_digits_not_isdigit _ Hp). by apply IH.
  - rewrite Hp. by apply IH.
Qed.

Lemma natural_key_alternating (s : string) : alternating true (_natural_key s).
Proof.
  unfold _natural_key.
  destruct (re_split_digits_shape (Str.lower s)) as (t0 & rest & -> & Hok).
  by apply pieces_key_alternating.
Qed.

Lemma string_ltb_asym (a b : string) : String.ltb a b = true -> String.ltb b a = false.
Proof.
  unfold String.ltb. rewrite (String.compare_antisym a b).
  by destruct (String.compare b a).
Qed.

Lemma part_eqb_sym (x y : key_part) : part_eqb x y = part_eqb y x.
Proof.
  destruct x, y; cbn; try done.
  - apply N.eqb_sym.
  - apply String.eqb_sym.
Qed.

(** Two keys of the same shape never meet an [int] against a [str]. *)
Lemma list_lt_total (text : bool) (a b : natural_key) :
  alternating text a -> alternating text b -> exists r, list_lt a b = Ok r.
Proof.
  revert text b. induction a as [|x a IH]; intros text [|y b] Ha Hb; cbn;
    try (eexists; reflexivity).
  destruct (part_eqb x y).
  - cbn in Ha, Hb. destruct x, y, text; try done; by eapply IH.
  - cbn in Ha, Hb. destruct x, y, text; try done; cbn; eexists; reflexivity.
Qed.

Lemma list_lt_asym (text : bool) (a b : natural_key) :
  alternating text a -> alternating text b ->
  list_lt a b = Ok true -> list_lt b a = Ok false.
Proof.
  revert text b. induction a as [|x a IH]; intros text [|y b] Ha Hb; cbn;
    try done.
  rewrite (part_eqb_sym y x).
  destruct (part_eqb x y).
  - cbn in Ha, Hb. destruct x, y, text; try done; by eapply IH.
  - cbn in Ha, Hb. destruct x, y, text; try done; cbn; intros [= Hlt]; f_equal.
    + apply N.ltb_lt in Hlt. apply N.ltb_ge. lia.
    + by apply string_ltb_asym.
Qed.

End KeyShape.

(** * The stable sort *)

Section SortFacts.
Context {K A : Type}.
Variable lt : K -> K -> result bool.
Variable good : K -> Prop.
Hypothesis lt_total :
  forall a b, good a -> good b -> exists r, lt a b = Ok r.
Hypothesis lt_asym :
  forall a b, good a -> good b -> lt a b = Ok true -> lt b a = Ok false.

Implicit Types (x y : K * A) (l r : list (K * A)).

Lemma ordered_by_tail x l : ordered_by lt (x :: l) -> ordered_by lt l.
Proof. by intros [_ H]. Qed.

Lemma insert_sorted_ok x l :
  good (fst x) -> Forall (fun y => good (fst y)) l -> ordered_by lt l ->
  exists r,
    insert_sorted lt x l = Ok r
    /\ Permutation (x :: l) r
    /\ ordered_by lt r
    /\ forall y, lt (fst x) (fst y) = Ok false ->
                 ordered_by lt (y :: l) -> ordered_by lt (y :: r).
Proof.
  intros Hx. induction l as [|y l IH]; intros Hl Hord.
  - exists [x]. cbn. repeat split; try done.
  - apply Forall_cons in Hl as [Hy Hl].
    cbn [insert_sorted].
    destruct (lt_total _ _ Hy Hx) as [[] Hlt]; rewrite Hlt; cbn [rbind].
    + destruct (IH Hl (ordered_by_tail _ _ Hord)) as (r & -> & Hperm & Hr & Hhead).
      exists (y :: r). cbn [rmap rbind].
      assert (Hyr : ordered_by lt (y :: r)).
      { apply Hhead; [by apply lt_asym|exact Hord]. }
      split; [done|]. split.
      { etransitivity; [apply perm_swap|]. by constructor. }
      split; [exact Hyr|].
      intros z Hxz [Hzy _]. split; [exact Hzy|exact Hyr].
    + exists (x :: y :: l). split; [done|]. split; [done|].
      split; [by split|].
      intros z Hxz Hz. split; [exact Hxz|]. by split.
Qed.

Lemma sort_decorated_ok l :
  Forall (fun y => good (fst y)) l ->
  exists r,
    sort_decorated lt l = Ok r /\ Permutation l r /\ ordered_by lt r.
Proof.
  induction l as [|x l IH]; intros Hl.
  - by exists [].
  - apply Forall_cons in Hl as [Hx Hl].
    destruct (IH Hl) as (r & Hr & Hperm & Hord).
    cbn [sort_decorated]. rewrite Hr. cbn [rbind].
    destruct (insert_sorted_ok x r Hx) as (r' & Hins & Hperm' & Hord' & _).
    { by rewrite <- Hperm. }
    { exact Hord. }
    exists r'. split; [exact Hins|]. split; [|exact Hord'].
    etransitivity; [|exact Hperm']. by constructor.
Qed.

(** Sorting a list that is in order leaves it as it is. *)
Lemma sort_decorated_ordered l : ordered_by lt l -> sort_decorated lt l = Ok l.
Proof.
  induction l as [|x l IH]; [done|].
  intros [Hhead Hord]. cbn [sort_decorated]. rewrite (IH Hord). cbn [rbind].
  destruct l as [|y l]; [done|].
  cbn [insert_sorted]. by rewrite Hhead.
Qed.
End SortFacts.

Section SortMap.
Context {K A B : Type}.
Variable lt : K -> K -> result bool.
Variable f : A -> B.

Lemma insert_sorted_map (x : K * A) (l : list (K * A)) :
  insert_sorted lt (on_value f x) (map (on_value f) l)
  = rmap (map (on_value f)) (insert_sorted lt x l).
Proof.
  induction l as [|y l IH]; [done|].
  cbn [map insert_sorted]. cbn [on_value fst].
  destruct (lt (fst y) (fst x)) as [[]|e]; cbn [rbind rmap]; try done.
  fold (on_value f x). rewrite IH.
  by destruct (insert_sorted lt x l).
Qed.

Lemma sort_decorated_map (l : list (K * A)) :
  sort_decorated lt (map (on_value f) l)
  = rmap (map (on_value f)) (sort_decorated lt l).
Proof.
  induction l as [|x l IH]; [done|].
  cbn [map sort_decorated]. rewrite IH.
  destruct (sort_decorated lt l) as [r|e]; cbn [rbind rmap]; [|done].
  apply insert_sorted_map.
Qed.
End SortMap.

Section SortedFacts.
Context {K A : Type}.
Variable lt : K -> K -> result bool.
Variable good : K -> Prop.
Hypothesis lt_total :
  forall a b, good a -> good b -> exists r, lt a b = Ok r.
Hypothesis lt_asym :
  forall a b, good a -> good b -> lt a b = Ok true -> lt b a = Ok false.
Variable key : A -> K.
Hypothesis key_good : forall x, good (key x).

Lemma decorate_map_snd (r : list (K * A)) :
  Forall (fun p => fst p = key (snd p)) r -> decorate key (map snd r) = r.
Proof.
  unfold decorate. induction 1 as [|[k a] r Hp _ IH]; [done|].
  cbn [map snd]. rewrite IH. cbn in Hp. by subst.
Qed.

Lemma sorted_ok (l : list A) :
  exists r,
    sorted lt key l = Ok r
    /\ Permutation l r
    /\ ordered_by lt (decorate key r).
Proof.
  destruct (sort_decorated_ok lt good lt_total lt_asym (decorate key l))
    as (r & Hr & Hperm & Hord).
  { unfold decorate. apply Forall_map, Forall_forall. intros; apply key_good. }
  assert (Hshape : Forall (fun p => fst p = key (snd p)) r).
  { rewrite <- Hperm. unfold decorate. by apply Forall_map, Forall_forall. }
  exists (map snd r). unfold sorted. fold (decorate key l). rewrite Hr.
  split; [done|]. split.
  - apply (Permutation_map snd) in Hperm. unfold decorate in Hperm.
    rewrite map_map in Hperm. cbn in Hperm. by rewrite map_id in Hperm.
  - by rewrite decorate_map_snd.
Qed.

Lemma sorted_ordered (l : list A) :
  ordered_by lt (decorate key l) -> sorted lt key l = Ok l.
Proof.
  intros Hord. unfold sorted. fold (decorate key l).
  rewrite (sort_decorated_ordered lt _ Hord). cbn.
  unfold decorate. rewrite map_map. cbn. by rewrite map_id.
Qed.
End SortedFacts.

Lemma sorted_map {K A B : Type} (lt : K -> K -> result bool)
    (g : A -> B) (key : A -> K) (key' : B -> K) (l : list A) :
  (forall x, key' (g x) = key x) ->
  sorted lt key' (map g l) = rmap (map g) (sorted lt key l).
Proof.
  intros Hkey. unfold sorted.
  assert (Hdec : map (fun x => (key' x, x)) (map g l)
                 = map (on_value g) (map (fun x => (key x, x)) l)).
  { rewrite !map_map. apply map_ext. intros x. unfold on_value. cbn.
    by rewrite Hkey. }
  rewrite Hdec, sort_decorated_map.
  destruct (sort_decorated lt (map (fun x => (key x, x)) l)) as [r|e]; cbn; [|done].
  f_equal. rewrite !map_map. by apply map_ext.
Qed.

(** Names sorted by their natural key. *)
Lemma ordered_naturally_sorted (names : list string) :
  ordered_by list_lt (decorate _natural_key names) <-> naturally_sorted names.
Proof.
  induction names as [|a [|b rest] IH]; cbn in *; tauto.
Qed.

Section MoreDictFacts.
Context {V : Type}.
Implicit Types (d items : list (string * V)) (k : string) (v : V).

Lemma dict_update_cons d k v items :
  dict_update d ((k, v) :: items) = dict_update (dict_set k v d) items.
Proof. reflexivity. Qed.

Lemma dict_get_app d1 d2 k :
  dict_get k (d1 ++ d2)
  = match dict_get k d1 with Some v => Some v | None => dict_get k d2 end.
Proof.
  induction d1 as [|[k' v'] d1 IH]; cbn; [done|].
  by destruct (String.eqb k' k).
Qed.

(** After an update a key holds the last value the items give it. *)
Lemma dict_get_update d items k :
  dict_get k (dict_update d items)
  = match dict_get k (rev items) with Some v => Some v | None => dict_get k d end.
Proof.
  revert d. induction items as [|[k0 v0] items IH]; intros d; [done|].
  rewrite dict_update_cons, IH. cbn [rev]. rewrite dict_get_app.
  destruct (dict_get k (rev items)); [done|].
  rewrite dict_get_set. cbn. by destruct (String.eqb k0 k).
Qed.

Lemma dict_set_In d k v x :
  In x (dict_set k v d) -> In x d \/ x = (k, v).
Proof.
  induction d as [|[k' v'] d IH]; cbn.
  - intros [<-|[]]. by right.
  - destruct (String.eqb k' k); cbn.
    + intros [<-|H]; [by right|by left; right].
    + intros [<-|H]; [by left; left|].
      destruct (IH H); [by left; right|by right].
Qed.

Lemma dict_update_In d items x :
  In x (dict_update d items) -> In x d \/ In x items.
Proof.
  revert d. induction items as [|[k v] items IH]; intros d; [by left|].
  rewrite dict_update_cons. intros H.
  destruct (IH _ H) as [H'|H']; [|by right; right].
  destruct (dict_set_In _ _ _ _ H') as [?| ->]; [by left|by right; left].
Qed.

Lemma dict_keys_set_incl d k v k' :
  In k' (dict_keys d) \/ k' = k <-> In k' (dict_keys (dict_set k v d)).
Proof.
  rewrite dict_keys_set. unfold dict_contains.
  destruct (dict_get k d) eqn:Hk.
  - split; [|by left]. intros [H| ->]; [done|].
    apply dict_get_Some_In in Hk.
    change k with (fst (k, v0)). by apply in_map.
  - rewrite in_app_iff. cbn. intuition.
Qed.

Lemma dict_keys_update d items k :
  In k (dict_keys (dict_update d items))
  <-> In k (dict_keys d) \/ In k (dict_keys items).
Proof.
  revert d. induction items as [|[k0 v0] items IH]; intros d.
  - cbn. tauto.
  - rewrite dict_update_cons, IH, <- dict_keys_set_incl. cbn. intuition.
Qed.

Lemma dict_keys_update_same d items :
  (forall k, In k (dict_keys items) -> In k (dict_keys d)) ->
  dict_keys (dict_update d items) = dict_keys d.
Proof.
  revert d. induction items as [|[k v] items IH]; intros d Hin; [done|].
  rewrite dict_update_cons.
  assert (Hkeys : dict_keys (dict_set k v d) = dict_keys d).
  { rewrite dict_keys_set. unfold dict_contains.
    destruct (dict_get k d) eqn:Hk; [done|].
    apply dict_get_None_keys in Hk. destruct Hk. apply Hin. by left. }
  rewrite IH, Hkeys; [done|].
  intros k' Hk'. rewrite Hkeys. apply Hin. by right.
Qed.

(** Two dicts with the same keys in the same order and the same value
    under every key are the same dict. *)
Lemma dict_ext d1 d2 :
  List.NoDup (dict_keys d1) ->
  dict_keys d1 = dict_keys d2 ->
  (forall k, dict_get k d1 = dict_get k d2) ->
  d1 = d2.
Proof.
  revert d2. induction d1 as [|[k v1] d1 IH]; intros [|[k2 v2] d2] Hnd Hkeys Hget;
    try done.
  cbn in Hkeys. injection Hkeys as <- Hkeys.
  apply List.NoDup_cons_iff in Hnd as [Hk Hnd].
  pose proof (Hget k) as Hv. cbn in Hv. rewrite String.eqb_refl in Hv.
  injection Hv as <-. f_equal.
  apply IH; [done|done|]. intros k'.
  destruct (String.eqb_spec k k') as [<-|Hne].
  - assert (H1 : dict_get k d1 = None) by by apply dict_get_None_keys.
    assert (H2 : dict_get k d2 = None).
    { apply dict_get_None_keys. unfold dict_keys in *. by rewrite <- Hkeys. }
    by rewrite H1, H2.
  - pose proof (Hget k') as Hv. cbn in Hv.
    apply String.eqb_neq in Hne. by rewrite Hne in Hv.
Qed.

Lemma dict_get_perm d1 d2 k :
  Permutation d1 d2 -> List.NoDup (dict_keys d1) -> dict_get k d1 = dict_get k d2.
Proof.
  intros Hperm Hnd.
  assert (Hnd2 : List.NoDup (dict_keys d2)).
  { eapply Permutation_NoDup; [|exact Hnd]. by apply Permutation_map. }
  destruct (dict_get k d1) as [v|] eqn:H1.
  - symmetry. apply dict_get_In_NoDup; [done|].
    rewrite <- Hperm. by apply dict_get_Some_In.
  - symmetry. apply dict_get_None_keys. apply dict_get_None_keys in H1.
    intros Hin. apply H1. unfold dict_keys.
    by rewrite (Permutation_map fst Hperm).
Qed.
End MoreDictFacts.

Lemma dict_set_on_value {A B : Type} (g : A -> B) (k : string) (a : A)
    (d : list (string * A)) :
  map (on_value g) (dict_set k a d) = dict_set k (g a) (map (on_value g) d).
Proof.
  induction d as [|[k' a'] d IH]; [done|].
  cbn. destruct (String.eqb k' k); cbn; [done|]. by rewrite IH.
Qed.

Lemma dict_keys_on_value {A B : Type} (g : A -> B) (d : list (string * A)) :
  dict_keys (map (on_value g) d) = dict_keys d.
Proof. unfold dict_keys. rewrite map_map. by apply map_ext. Qed.

(** * Scanning the config sources *)

Lemma all_in_object (names : list string) (fields : list (string * json)) :
  exists b, all_in names (JObj fields) = Ok b.
Proof.
  induction names as [|a names [b IH]]; cbn; [by eexists|].
  destruct (dict_contains a fields); [by exists b|by eexists].
Qed.

Lemma all_in_true (names : list string) (doc : json) :
  all_in names doc = Ok true <-> Forall (fun a => py_in a doc = Ok true) names.
Proof.
  induction names as [|a names IH]; cbn.
  - split; [constructor|done].
  - rewrite Forall_cons. destruct (py_in a doc) as [[]|e]; cbn.
    + rewrite IH. tauto.
    + split; [discriminate|]. intros [[=] _].
    + split; [discriminate|]. intros [[=] _].
Qed.

Lemma holds_object_readable (fs : filesystem) (cf : Path) :
  holds_object fs cf -> readable fs cf.
Proof.
  intros [fields Hread]. destruct (all_in_object required_fields fields) as [b Hb].
  by exists (JObj fields), b.
Qed.

Lemma valid_entries_In (fs : filesystem) (files : list Path) (name : string) (doc : json) :
  In (name, doc) (valid_entries fs files)
  <-> exists cf, In cf files /\ PathOps.stem cf = name /\ complete fs cf doc.
Proof.
  unfold valid_entries, complete. rewrite in_flat_map. split.
  - intros (cf & Hcf & Hin). exists cf. split; [done|].
    destruct (read_json fs cf) as [doc'|e]; [|done].
    destruct (all_in required_fields doc') as [[]|e] eqn:Hall; try done.
    destruct Hin as [[= <- <-]|[]]. by rewrite <- all_in_true.
  - intros (cf & Hcf & <- & Hread & Hall). exists cf. split; [done|].
    rewrite Hread. apply all_in_true in Hall. rewrite Hall. by left.
Qed.

Lemma valid_entries_cons (fs : filesystem) (cf : Path) (files : list Path) :
  valid_entries fs (cf :: files)
  = match read_json fs cf with
    | Ok doc =>
        match all_in required_fields doc with
        | Ok true => [(PathOps.stem cf, doc)]
        | _ => []
        end
    | Raise _ => []
    end ++ valid_entries fs files.
Proof. reflexivity. Qed.

(** One turn of the second loop on a file that reads and tests cleanly. *)
Lemma load_config_files_step (fs : filesystem) (cf : Path) (rest : list Path)
    (st : state) (doc : json) (b : bool) :
  read_json fs cf = Ok doc ->
  all_in required_fields doc = Ok b ->
  load_config_files fs (cf :: rest) st
  = load_config_files fs rest
      (mkState (heap st ++ [doc]) (_MODEL_CONFIG_PATHS st)
         (if b then dict_set (PathOps.stem cf) (length (heap st)) (_MODEL_CONFIGS st)
          else _MODEL_CONFIGS st)
         (trace st)).
Proof.
  intros Hread Hall. cbn [load_config_files].
  unfold bind, json_load, bind, lift, alloc, deref, get_configs, put_configs, ret.
  rewrite Hread. cbn [heap _MODEL_CONFIGS _MODEL_CONFIG_PATHS trace].
  rewrite read_heap_alloc, Hall. by destruct b.
Qed.

(** A turn that raises ends the loop. *)
Lemma load_config_files_raises (fs : filesystem) (cf : Path) (rest : list Path)
    (st : state) :
  ~ readable fs cf ->
  exists e, fst (load_config_files fs (cf :: rest) st) = Raise e.
Proof.
  intros Hnot. cbn [load_config_files].
  unfold bind, json_load, bind, lift, alloc, deref, get_configs, put_configs, ret.
  destruct (read_json fs cf) as [doc|e] eqn:Hread; [|by exists e].
  cbn [heap]. rewrite read_heap_alloc.
  destruct (all_in required_fields doc) as [b|e] eqn:Hall; [|by exists e].
  destruct Hnot. by exists doc, b.
Qed.

Lemma registry_view_alloc (h : list json) (v : json) (cs : list (string * loc)) :
  Forall (fun kv => snd kv < length h) cs ->
  map (on_value (read_heap (h ++ [v]))) cs = map (on_value (read_heap h)) cs.
Proof.
  induction 1 as [|[k l] cs Hl _ IH]; [done|].
  cbn [map]. rewrite IH. unfold on_value, read_heap. cbn [fst snd] in *.
  by rewrite lookup_alloc_old.
Qed.

Lemma Forall_dict_set {A : Type} (Q : A -> Prop) (k : string) (a : A)
    (d : list (string * A)) :
  Forall (fun kv => Q (snd kv)) d -> Q a ->
  Forall (fun kv => Q (snd kv)) (dict_set k a d).
Proof.
  intros Hd Ha. induction Hd as [|[k' a'] d Hx Hd IH]; cbn.
  - by constructor.
  - destruct (String.eqb k' k); constructor; done.
Qed.

Lemma load_config_files_ok (fs : filesystem) (files : list Path) (st : state) :
  registry_ok st ->
  Forall (readable fs) files ->
  exists st',
    load_config_files fs files st = (Ok tt, st')
    /\ _MODEL_CONFIG_PATHS st' = _MODEL_CONFIG_PATHS st
    /\ trace st' = trace st
    /\ registry_ok st'
    /\ registry_view st' = dict_update (registry_view st) (valid_entries fs files).
Proof.
  intros Hok Hfiles. revert st Hok.
  induction Hfiles as [|cf files (doc & b & Hread & Hall) _ IH]; intros st Hok.
  - exists st. by cbn.
  - rewrite (load_config_files_step fs cf files st doc b Hread Hall).
    set (st1 := mkState _ _ _ _).
    destruct Hok as [Hnd Hwf].
    assert (Hok1 : registry_ok st1).
    { split.
      - unfold registry_names. cbn [_MODEL_CONFIGS st1].
        destruct b; [by apply dict_keys_set_NoDup|done].
      - unfold registry_wf. cbn [_MODEL_CONFIGS heap st1].
        rewrite length_app. cbn [length].
        assert (Hold : Forall (fun kv : string * loc => snd kv < length (heap st) + 1)
                         (_MODEL_CONFIGS st)).
        { eapply Forall_impl; [exact Hwf|]. cbn. intros; lia. }
        destruct b; [|exact Hold].
        apply (Forall_dict_set (fun l => l < length (heap st) + 1)); [exact Hold|lia]. }
    assert (Hview1 : registry_view st1
                     = if b then dict_set (PathOps.stem cf) doc (registry_view st)
                       else registry_view st).
    { unfold registry_view. cbn [_MODEL_CONFIGS heap st1].
      destruct b.
      - rewrite dict_set_on_value, read_heap_alloc.
        by rewrite (registry_view_alloc _ _ _ Hwf).
      - by apply registry_view_alloc. }
    destruct (IH st1 Hok1) as (st' & Hrun & Hpaths & Htrace & Hok' & Hview).
    exists st'. split; [exact Hrun|]. split; [exact Hpaths|].
    split; [exact Htrace|]. split; [exact Hok'|].
    rewrite Hview, Hview1, valid_entries_cons, Hread, Hall.
    by destruct b.
Qed.

Lemma load_config_files_inv (fs : filesystem) (files : list Path) (st : state) :
  fst (load_config_files fs files st) = Ok tt -> Forall (readable fs) files.
Proof.
  revert st. induction files as [|cf files IH]; intros st Hrun; [constructor|].
  destruct (read_json fs cf) as [doc|e] eqn:Hread.
  - destruct (all_in required_fields doc) as [b|e] eqn:Hall.
    + rewrite (load_config_files_step fs cf files st doc b Hread Hall) in Hrun.
      constructor; [by exists doc, b|]. by eapply IH.
    + exfalso. revert Hrun. cbn [load_config_files].
      unfold bind, json_load, bind, lift, alloc, deref. rewrite Hread.
      cbn [heap]. by rewrite read_heap_alloc, Hall.
  - exfalso. revert Hrun. cbn [load_config_files].
    unfold bind, json_load, bind, lift. by rewrite Hread.
Qed.

Lemma sorted_natural_ok {A : Type} (l : list (string * A)) :
  exists r,
    sorted list_lt item_key l = Ok r
    /\ Permutation l r
    /\ ordered_by list_lt (decorate item_key r).
Proof.
  apply (sorted_ok list_lt (alternating true)).
  - apply list_lt_total.
  - apply list_lt_asym.
  - intros x. apply natural_key_alternating.
Qed.

(** What a scan that meets no unreadable file does to the registry: the
    valid documents are assigned under their stems, the registry is then
    re-sorted by natural key. *)
Lemma rescan_ok (fs : filesystem) (st : state) :
  registry_ok st ->
  Forall (readable fs) (collect_config_files fs (_MODEL_CONFIG_PATHS st)) ->
  exists st',
    _rescan_model_configs fs st = (Ok tt, st')
    /\ _MODEL_CONFIG_PATHS st' = _MODEL_CONFIG_PATHS st
    /\ trace st' = trace st
    /\ registry_ok st'
    /\ sorted list_lt item_key
         (dict_update (registry_view st)
            (valid_entries fs (collect_config_files fs (_MODEL_CONFIG_PATHS st))))
       = Ok (registry_view st')
    /\ ordered_by list_lt (decorate item_key (registry_view st')).
Proof.
  intros Hok Hfiles.
  destruct (load_config_files_ok fs _ st Hok Hfiles)
    as (st1 & Hrun & Hpaths & Htrace & [Hnd1 Hwf1] & Hview1).
  destruct (sorted_natural_ok (_MODEL_CONFIGS st1)) as (items & Hsort & Hperm & Hord).
  assert (Hnd : List.NoDup (dict_keys items)).
  { eapply Permutation_NoDup; [|exact Hnd1]. by apply Permutation_map. }
  exists (mkState (heap st1) (_MODEL_CONFIG_PATHS st1) items (trace st1)).
  split.
  { unfold _rescan_model_configs, bind, get_paths, get_configs, lift, put_configs.
    rewrite Hrun. unfold item_key in Hsort. rewrite Hsort.
    by rewrite (dict_update_fresh [] items Hnd). }
  split; [exact Hpaths|]. split; [exact Htrace|].
  assert (Hsorted_view :
    sorted list_lt item_key (registry_view st1)
    = Ok (map (on_value (read_heap (heap st1))) items)).
  { unfold registry_view.
    rewrite (sorted_map list_lt (on_value (read_heap (heap st1))) item_key item_key)
      by done.
    by rewrite Hsort. }
  split; [|split].
  - split; [exact Hnd|]. unfold registry_wf. cbn [_MODEL_CONFIGS heap].
    by rewrite <- Hperm.
  - by rewrite <- Hview1.
  - destruct (sorted_natural_ok (registry_view st1)) as (r & Hr & _ & Hordr).
    rewrite Hsorted_view in Hr. injection Hr as <-. exact Hordr.
Qed.

Lemma rescan_inv (fs : filesystem) (st : state) :
  fst (_rescan_model_configs fs st) = Ok tt ->
  Forall (readable fs) (collect_config_files fs (_MODEL_CONFIG_PATHS st)).
Proof.
  intros Hrun. apply (load_config_files_inv fs _ st).
  revert Hrun. unfold _rescan_model_configs, bind, get_paths.
  destruct (load_config_files fs _ st) as [[[]|e] st1]; [done|discriminate].
Qed.

(** Assigning again what a scan has just assigned changes nothing. *)
Lemma dict_update_absorbed {V : Type} (d items sorted_d : list (string * V)) :
  List.NoDup (dict_keys d) ->
  Permutation (dict_update d items) sorted_d ->
  dict_update sorted_d items = sorted_d.
Proof.
  intros Hnd Hperm.
  assert (Hnd_upd : List.NoDup (dict_keys (dict_update d items)))
    by by apply dict_update_keys_NoDup.
  assert (Hnd_sorted : List.NoDup (dict_keys sorted_d)).
  { eapply Permutation_NoDup; [|exact Hnd_upd]. by apply Permutation_map. }
  assert (Hkeys : dict_keys (dict_update sorted_d items) = dict_keys sorted_d).
  { apply dict_keys_update_same. intros k Hk.
    unfold dict_keys. rewrite <- (Permutation_map fst Hperm).
    apply dict_keys_update. by right. }
  apply dict_ext.
  - by apply dict_update_keys_NoDup.
  - exact Hkeys.
  - intros k. rewrite dict_get_update.
    rewrite <- (dict_get_perm _ _ k Hperm Hnd_upd), dict_get_update.
    by destruct (dict_get k (rev items)).
Qed.

Lemma ordered_item_key {A : Type} (l : list (string * A)) :
  ordered_by list_lt (decorate item_key l) <-> naturally_sorted (dict_keys l).
Proof.
  induction l as [|a [|b rest] IH]; cbn in *; tauto.
Qed.

Lemma valid_entries_keys (fs : filesystem) (files : list Path) (name : string) :
  In name (dict_keys (valid_entries fs files))
  <-> exists cf doc, In cf files /\ PathOps.stem cf = name /\ complete fs cf doc.
Proof.
  unfold dict_keys. rewrite in_map_iff. split.
  - intros ([name' doc] & <- & Hin). apply valid_entries_In in Hin as (cf & ? & ? & ?).
    by exists cf, doc.
  - intros (cf & doc & Hcf & Hstem & Hc). exists (name, doc). split; [done|].
    apply valid_entries_In. by exists cf.
Qed.

Lemma dict_get_rev_None {V : Type} (items : list (string * V)) (k : string) :
  ~ In k (dict_keys items) -> dict_get k (rev items) = None.
Proof.
  intros Hk. apply dict_get_None_keys. intros Hin. apply Hk.
  unfold dict_keys in *. rewrite map_rev in Hin. by apply in_rev.
Qed.

(** [C1, as amended] When every candidate file of a scan parses to a JSON
    object, and the names in play (those already registered and the stems
    of the candidates that have all three required fields) are plain, the
    scan returns normally and every entry of the registry afterwards is
    either an entry that was there before the scan or the document of a
    candidate that has all three required fields, under that candidate's
    stem: a document lacking a field adds nothing.  A candidate that
    cannot be parsed is not skipped: the scan raises. *)
Theorem rescan_skips_incomplete_documents (fs : filesystem) (st : state) :
  (registry_ok st ->
   Forall (holds_object fs) (collect_config_files fs (_MODEL_CONFIG_PATHS st)) ->
   Forall (fun name => plain_name name = true) (registry_names st) ->
   (forall cf doc,
      In cf (collect_config_files fs (_MODEL_CONFIG_PATHS st)) ->
      complete fs cf doc -> plain_name (PathOps.stem cf) = true) ->
   exists st',
     _rescan_model_configs fs st = (Ok tt, st')
     /\ forall name doc,
          In (name, doc) (registry_view st') ->
          In (name, doc) (registry_view st)
          \/ exists cf,
               In cf (collect_config_files fs (_MODEL_CONFIG_PATHS st))
               /\ PathOps.stem cf = name /\ complete fs cf doc)
  /\ (forall cf e,
        In cf (collect_config_files fs (_MODEL_CONFIG_PATHS st)) ->
        read_json fs cf = Raise e ->
        exists e', fst (_rescan_model_configs fs st) = Raise e').
Proof.
  split.
  - intros Hok Hfiles _ _.
    assert (Hread : Forall (readable fs)
                      (collect_config_files fs (_MODEL_CONFIG_PATHS st))).
    { eapply Forall_impl; [exact Hfiles|]. apply holds_object_readable. }
    destruct (rescan_ok fs st Hok Hread) as (st' & Hrun & _ & _ & _ & Hsorted & _).
    exists st'. split; [exact Hrun|].
    destruct (sorted_natural_ok
                (dict_update (registry_view st)
                   (valid_entries fs (collect_config_files fs (_MODEL_CONFIG_PATHS st)))))
      as (r & Hr & Hperm & _).
    rewrite Hsorted in Hr. injection Hr as <-.
    intros name doc Hin. rewrite <- Hperm in Hin.
    apply dict_update_In in Hin as [Hin|Hin]; [by left|right].
    by apply valid_entries_In.
  - intros cf e Hcf Hread.
    destruct (fst (_rescan_model_configs fs st)) as [[]|e'] eqn:Hrun; [|by exists e'].
    apply rescan_inv in Hrun.
    rewrite List.Forall_forall in Hrun. destruct (Hrun cf Hcf) as (doc & b & Hdoc & _).
    congruence.
Qed.

Lemma initial_state_ok (module_dir : Path) : registry_ok (initial_state module_dir).
Proof. split; [constructor|constructor]. Qed.

Lemma rescan_skips_incomplete_documents_witness :
  registry_ok (initial_state Demo.pkg)
  /\ Forall (holds_object Demo.fs_partial)
       (collect_config_files Demo.fs_partial
          (_MODEL_CONFIG_PATHS (initial_state Demo.pkg)))
  /\ Forall (fun name => plain_name name = true)
       (registry_names (initial_state Demo.pkg))
  /\ Forall (fun cf => plain_name (PathOps.stem cf) = true)
       (collect_config_files Demo.fs_partial
          (_MODEL_CONFIG_PATHS (initial_state Demo.pkg)))
  /\ exists st',
       _rescan_model_configs Demo.fs_partial (initial_state Demo.pkg) = (Ok tt, st')
       /\ registry_view st' = [("ViT-B-32", Demo.vit_cfg 512)].
Proof.
  assert (Hok := initial_state_ok Demo.pkg).
  assert (Hfiles : Forall (holds_object Demo.fs_partial)
                     (collect_config_files Demo.fs_partial
                        (_MODEL_CONFIG_PATHS (initial_state Demo.pkg)))).
  { cbn. repeat constructor; eexists; reflexivity. }
  assert (Hold : Forall (fun name => plain_name name = true)
                   (registry_names (initial_state Demo.pkg))) by constructor.
  assert (Hstems : Forall (fun cf => plain_name (PathOps.stem cf) = true)
                     (collect_config_files Demo.fs_partial
                        (_MODEL_CONFIG_PATHS (initial_state Demo.pkg)))).
  { cbn. repeat constructor. }
  split; [exact Hok|]. split; [exact Hfiles|]. split; [exact Hold|].
  split; [exact Hstems|].
  destruct (proj1 (rescan_skips_incomplete_documents Demo.fs_partial
                     (initial_state Demo.pkg)) Hok Hfiles Hold
              (fun cf doc Hcf _ => proj1 (List.Forall_forall _ _) Hstems cf Hcf))
    as (st' & Hrun & _).
  exists st'. split; [exact Hrun|].
  vm_compute in Hrun. injection Hrun as <-. reflexivity.
Defined.

(** [C1, as stated, fails] A candidate that is not JSON is not skipped:
    the scan of the package directory raises the parser's error. *)
Lemma rescan_skips_incomplete_documents_counterexample :
  In (Demo.pkg ++ ["model_configs"; "broken.json"])%list
     (collect_config_files Demo.fs_stray (_MODEL_CONFIG_PATHS (initial_state Demo.pkg)))
  /\ read_json Demo.fs_stray (Demo.pkg ++ ["model_configs"; "broken.json"])%list
     = Raise JSONDecodeError
  /\ fst (_rescan_model_configs Demo.fs_stray (initial_state Demo.pkg))
     = Raise JSONDecodeError.
Proof. split; [vm_compute; auto|]. split; reflexivity. Qed.

(** A document that parses to a number cannot be tested for membership. *)
Example rescan_scalar_document :
  fst (_rescan_model_configs Demo.fs_scalar (initial_state Demo.pkg)) = Raise TypeError.
Proof. reflexivity. Qed.

(** The document a name gets from the last valid candidate that carries
    it. *)
Lemma last_value_valid_entries (fs : filesystem) (before after : list Path)
    (cf : Path) (doc : json) :
  complete fs cf doc ->
  (forall cf' doc',
      In cf' after -> complete fs cf' doc' -> PathOps.stem cf' <> PathOps.stem cf) ->
  last_value (PathOps.stem cf) (valid_entries fs (before ++ cf :: after)) = Some doc.
Proof.
  intros [Hread Hall] Hafter. apply all_in_true in Hall.
  unfold last_value, valid_entries. rewrite flat_map_app.
  fold (valid_entries fs before). fold (valid_entries fs (cf :: after)).
  rewrite valid_entries_cons, Hread, Hall.
  rewrite !rev_app_distr, <- app_assoc, dict_get_app.
  rewrite dict_get_rev_None.
  - cbn. by rewrite String.eqb_refl.
  - rewrite valid_entries_keys. intros (cf' & doc' & Hcf' & Hstem & Hc).
    by apply (Hafter cf' doc').
Qed.

(** [C3, as amended] A scan that returns normally updates the registry it
    finds.  The names afterwards are the names held before together with
    the stems of the current candidates that have all three required
    fields.  A name that a current valid candidate carries holds the
    document of the last such candidate in scan order, and no other: the
    entry it had before is replaced.  An entry whose name no current valid
    candidate carries is kept as it was.  Plain names end up in natural
    order.  A second scan over the same filesystem returns normally and
    leaves a registry with the same names, in the same order, holding the
    same documents. *)
Theorem rescan_updates_and_is_idempotent (fs : filesystem) (st : state) :
  registry_ok st ->
  fst (_rescan_model_configs fs st) = Ok tt ->
  let files := collect_config_files fs (_MODEL_CONFIG_PATHS st) in
  let st1 := snd (_rescan_model_configs fs st) in
  (forall name,
      In name (registry_names st1)
      <-> In name (registry_names st)
          \/ exists cf doc, In cf files /\ PathOps.stem cf = name /\ complete fs cf doc)
  /\ (forall before cf after doc,
        files = (before ++ cf :: after)%list ->
        complete fs cf doc ->
        (forall cf' doc',
            In cf' after -> complete fs cf' doc' -> PathOps.stem cf' <> PathOps.stem cf) ->
        In (PathOps.stem cf, doc) (registry_view st1)
        /\ forall doc', In (PathOps.stem cf, doc') (registry_view st1) -> doc' = doc)
  /\ (forall name doc,
        In (name, doc) (registry_view st) ->
        (forall cf doc', In cf files -> complete fs cf doc' -> PathOps.stem cf <> name) ->
        In (name, doc) (registry_view st1))
  /\ (Forall (fun name => plain_name name = true) (registry_names st1) ->
      naturally_sorted (registry_names st1))
  /\ fst (_rescan_model_configs fs st1) = Ok tt
  /\ registry_view (snd (_rescan_model_configs fs st1)) = registry_view st1.
Proof.
  intros Hok Hrun files st1.
  pose proof (rescan_inv fs st Hrun) as Hread. fold files in Hread.
  destruct (rescan_ok fs st Hok Hread)
    as (st' & Hrun' & Hpaths & _ & Hok' & Hsorted & Hord).
  assert (Hst1 : st1 = st') by (subst st1; by rewrite Hrun').
  rewrite Hst1. clear Hst1 st1. fold files in Hsorted.
  set (updated := dict_update (registry_view st) (valid_entries fs files)) in *.
  destruct (sorted_natural_ok updated) as (r & Hr & Hperm & _).
  rewrite Hsorted in Hr. injection Hr as <-.
  assert (Hnd_view : List.NoDup (dict_keys (registry_view st))).
  { unfold registry_view. rewrite dict_keys_on_value. apply Hok. }
  assert (Hnd_upd : List.NoDup (dict_keys updated))
    by by apply dict_update_keys_NoDup.
  assert (Hnames : forall s : state, registry_names s = dict_keys (registry_view s)).
  { intros s. unfold registry_view. by rewrite dict_keys_on_value. }
  split; [|split; [|split; [|split]]].
  - intros name. rewrite !Hnames.
    unfold dict_keys at 1. rewrite <- (Permutation_map fst Hperm).
    fold (dict_keys updated). unfold updated.
    by rewrite dict_keys_update, valid_entries_keys.
  - intros before cf after doc Hsplit Hc Hafter.
    assert (Hget : dict_get (PathOps.stem cf) updated = Some doc).
    { unfold updated. rewrite dict_get_update.
      fold (last_value (PathOps.stem cf) (valid_entries fs files)).
      by rewrite Hsplit, (last_value_valid_entries fs before after cf doc Hc Hafter). }
    split.
    + rewrite <- Hperm. by apply dict_get_Some_In.
    + intros doc' Hin. rewrite <- Hperm in Hin.
      apply (dict_get_In_NoDup _ _ _ Hnd_upd) in Hin. congruence.
  - intros name doc Hin Hfresh. rewrite <- Hperm.
    apply dict_get_Some_In. unfold updated. rewrite dict_get_update.
    rewrite dict_get_rev_None.
    + by apply dict_get_In_NoDup.
    + rewrite valid_entries_keys. intros (cf & doc' & Hcf & Hstem & Hc).
      by apply (Hfresh cf doc').
  - intros _. rewrite Hnames. by apply ordered_item_key.
  - assert (Hread' : Forall (readable fs)
                       (collect_config_files fs (_MODEL_CONFIG_PATHS st')))
      by by rewrite Hpaths.
    destruct (rescan_ok fs st' Hok' Hread')
      as (st'' & Hrun'' & _ & _ & _ & Hsorted'' & _).
    rewrite Hrun''. cbn [fst snd]. split; [done|].
    rewrite Hpaths in Hsorted''. fold files in Hsorted''.
    rewrite (dict_update_absorbed (registry_view st) _ _ Hnd_view Hperm) in Hsorted''.
    rewrite (sorted_ordered list_lt item_key _ Hord) in Hsorted''.
    by injection Hsorted''.
Qed.

Lemma rescan_updates_and_is_idempotent_witness :
  registry_ok Demo.booted
  /\ fst (_rescan_model_configs Demo2.fs_updated Demo.booted) = Ok tt
  /\ In ("ViT-B-32", Demo.vit_cfg 512) (registry_view Demo.booted)
  /\ registry_view (snd (_rescan_model_configs Demo2.fs_updated Demo.booted))
     = [("RN50", Demo.vit_cfg 1024); ("ViT-B-16", Demo.vit_cfg 512);
        ("ViT-B-32", Demo.vit_cfg 768)]
  /\ (forall doc',
        In ("ViT-B-32", doc')
           (registry_view (snd (_rescan_model_configs Demo2.fs_updated Demo.booted))) ->
        doc' = Demo.vit_cfg 768)
  /\ registry_view
       (snd (_rescan_model_configs Demo2.fs_updated
               (snd (_rescan_model_configs Demo2.fs_updated Demo.booted))))
     = registry_view (snd (_rescan_model_configs Demo2.fs_updated Demo.booted)).
Proof.
  assert (Hok : registry_ok Demo.booted).
  { split; [|by vm_compute; repeat constructor].
    vm_compute. repeat constructor; cbn; intuition discriminate. }
  split; [exact Hok|]. split; [reflexivity|].
  split; [vm_compute; tauto|]. split; [reflexivity|].
  destruct (rescan_updates_and_is_idempotent Demo2.fs_updated Demo.booted Hok eq_refl)
    as (_ & Hreplace & _ & _ & _ & Hsame).
  split; [|exact Hsame].
  refine (proj2 (Hreplace [] (default_config_path Demo.pkg ++ ["ViT-B-32.json"])%list
                   [] (Demo.vit_cfg 768) eq_refl _ _)).
  - split; [reflexivity|]. repeat constructor.
  - intros cf' doc' [].
Defined.

(** [C3, as stated, fails] The registry was populated from the shipped
    package directory; "RN50.json" is then deleted and the sources are
    scanned again.  The scan returns normally, no current source holds an
    "RN50" document, and the registry still lists "RN50". *)
Lemma rescan_updates_and_is_idempotent_counterexample :
  fst (import_module Demo.pkg Demo.fs_shipped) = Ok tt
  /\ fst (_rescan_model_configs Demo.fs_removed Demo.booted) = Ok tt
  /\ map PathOps.stem
       (collect_config_files Demo.fs_removed (_MODEL_CONFIG_PATHS Demo.booted))
     = ["ViT-B-32"; "ViT-B-16"]
  /\ registry_names Demo.after_removal = ["RN50"; "ViT-B-16"; "ViT-B-32"]
  /\ In ("RN50", Demo.vit_cfg 1024) (registry_view Demo.after_removal).
Proof. repeat split; try reflexivity. vm_compute. auto. Qed.

(** * The natural order of names *)

Lemma ascii_compare_refl (a : ascii) : Ascii.compare a a = Eq.
Proof. apply N.compare_refl. Qed.

Lemma ascii_compare_lt_trans (a b c : ascii) :
  Ascii.compare a b = Lt -> Ascii.compare b c = Lt -> Ascii.compare a c = Lt.
Proof.
  unfold Ascii.compare. rewrite !N.compare_lt_iff. lia.
Qed.

Lemma string_compare_lt_trans (a b c : string) :
  String.compare a b = Lt -> String.compare b c = Lt -> String.compare a c = Lt.
Proof.
  revert b c. induction a as [|x a IH]; intros [|y b] [|z c]; cbn; try done.
  destruct (Ascii.compare x y) eqn:Hxy; try done;
    destruct (Ascii.compare y z) eqn:Hyz; try done.
  - apply Ascii.compare_eq_iff in Hxy as ->. apply Ascii.compare_eq_iff in Hyz as ->.
    rewrite ascii_compare_refl. apply IH.
  - apply Ascii.compare_eq_iff in Hxy as ->. by rewrite Hyz.
  - apply Ascii.compare_eq_iff in Hyz as <-. by rewrite Hxy.
  - by rewrite (ascii_compare_lt_trans x y z).
Qed.

Lemma string_ltb_trans (a b c : string) :
  String.ltb a b = true -> String.ltb b c = true -> String.ltb a c = true.
Proof.
  unfold String.ltb.
  destruct (String.compare a b) eqn:Hab; try done.
  destruct (String.compare b c) eqn:Hbc; try done.
  by rewrite (string_compare_lt_trans a b c).
Qed.

Lemma string_ltb_connected (a b : string) :
  String.ltb a b = false -> String.ltb b a = false -> a = b.
Proof.
  unfold String.ltb. rewrite (String.compare_antisym b a).
  destruct (String.compare a b) eqn:Hab; cbn; try done.
  intros _ _. by apply String.compare_eq_iff.
Qed.

Lemma part_eqb_eq (x y : key_part) : part_eqb x y = true <-> x = y.
Proof.
  destruct x, y; cbn; try (split; [done|discriminate]).
  - rewrite N.eqb_eq. split; [by intros ->|by intros [= ->]].
  - rewrite String.eqb_eq. split; [by intros ->|by intros [= ->]].
Qed.

Lemma part_eqb_refl (x : key_part) : part_eqb x x = true.
Proof. by apply part_eqb_eq. Qed.

Lemma part_lt_trans (x y z : key_part) :
  part_lt x y = Ok true -> part_lt y z = Ok true -> part_lt x z = Ok true.
Proof.
  destruct x, y, z; cbn; try done; intros [= Hxy] [= Hyz]; f_equal.
  - apply N.ltb_lt in Hxy, Hyz. apply N.ltb_lt. lia.
  - by apply (string_ltb_trans s s0 s1).
Qed.

Lemma part_lt_irrefl (x : key_part) : part_lt x x <> Ok true.
Proof.
  destruct x; cbn; intros [= H].
  - by rewrite N.ltb_irrefl in H.
  - unfold String.ltb in H.
    destruct (String.compare s s) eqn:Hc; try done.
    pose proof (String.compare_antisym s s) as Ha. rewrite Hc in Ha. discriminate.
Qed.

Lemma part_lt_connected (x y : key_part) :
  part_lt x y = Ok false -> part_lt y x = Ok false -> x = y.
Proof.
  destruct x, y; cbn; try done; intros [= Hxy] [= Hyx]; f_equal.
  - apply N.ltb_ge in Hxy, Hyx. lia.
  - by apply string_ltb_connected.
Qed.

Lemma list_lt_trans (text : bool) (a b c : natural_key) :
  alternating text a -> alternating text b -> alternating text c ->
  list_lt a b = Ok true -> list_lt b c = Ok true -> list_lt a c = Ok true.
Proof.
  revert text b c.
  induction a as [|x a IH]; intros text [|y b] [|z c] Ha Hb Hc; cbn; try done.
  assert (Htails : alternating (negb text) a /\ alternating (negb text) b
                   /\ alternating (negb text) c).
  { cbn in Ha, Hb, Hc. destruct x, y, z, text; try done. }
  destruct Htails as (Ha' & Hb' & Hc').
  destruct (part_eqb x y) eqn:Hxy.
  - apply part_eqb_eq in Hxy as <-.
    destruct (part_eqb x z) eqn:Hxz; [|done]. by apply (IH (negb text)).
  - destruct (part_eqb y z) eqn:Hyz.
    + apply part_eqb_eq in Hyz as <-. by rewrite Hxy.
    + intros Hlt1 Hlt2. pose proof (part_lt_trans x y z Hlt1 Hlt2) as Hlt.
      destruct (part_eqb x z) eqn:Hxz; [|done].
      apply part_eqb_eq in Hxz as <-. by apply part_lt_irrefl in Hlt.
Qed.

Lemma list_lt_connected (text : bool) (a b : natural_key) :
  alternating text a -> alternating text b ->
  list_lt a b = Ok false -> list_lt b a = Ok false -> a = b.
Proof.
  revert text b. induction a as [|x a IH]; intros text [|y b] Ha Hb; cbn; try done.
  rewrite (part_eqb_sym y x).
  destruct (part_eqb x y) eqn:Hxy.
  - apply part_eqb_eq in Hxy as <-. intros H1 H2. f_equal.
    apply (IH (negb text)); try done.
    + cbn in Ha. by destruct x, text.
    + cbn in Hb. by destruct x, text.
  - intros H1 H2. rewrite (part_lt_connected x y H1 H2) in Hxy.
    by rewrite part_eqb_refl in Hxy.
Qed.

Lemma list_lt_irrefl (text : bool) (a : natural_key) :
  alternating text a -> list_lt a a = Ok false.
Proof.
  intros Ha. destruct (list_lt_total text a a Ha Ha) as [[] Hr]; [|done].
  by rewrite (list_lt_asym text a a Ha Ha Hr) in Hr.
Qed.

Lemma key_le_trans (text : bool) (a b c : natural_key) :
  alternating text a -> alternating text b -> alternating text c ->
  key_le a b -> key_le b c -> key_le a c.
Proof.
  unfold key_le. intros Ha Hb Hc Hab Hbc.
  destruct (list_lt_total text c a Hc Ha) as [[] Hca]; [|done].
  destruct (list_lt_total text a b Ha Hb) as [[] Hab'].
  - by rewrite (list_lt_trans text c a b Hc Ha Hb Hca Hab') in Hbc.
  - rewrite (list_lt_connected text a b Ha Hb Hab' Hab) in Hca. congruence.
Qed.

Lemma naturally_sorted_pairs (names : list string) :
  naturally_sorted names ->
  ForallOrdPairs (fun a b => key_le (_natural_key a) (_natural_key b)) names.
Proof.
  induction names as [|a rest IH]; [constructor|].
  intros [Hhead Hrest]. specialize (IH Hrest).
  constructor; [|exact IH].
  destruct rest as [|b rest']; [constructor|].
  constructor; [exact Hhead|].
  inversion IH as [|? ? Hb _]; subst.
  eapply Forall_impl; [exact Hb|]. cbn. intros c Hbc.
  apply (key_le_trans true _ (_natural_key b)); try apply natural_key_alternating;
    done.
Qed.

Lemma char_lower_is_digit (c : ascii) : Str.is_digit (Str.char_lower c) = Str.is_digit c.
Proof. destruct c as [[] [] [] [] [] [] [] []]; reflexivity. Qed.

Lemma char_lower_digit_fixed (c : ascii) : Str.is_digit c = true -> Str.char_lower c = c.
Proof. destruct c as [[] [] [] [] [] [] [] []]; vm_compute; congruence. Qed.

Lemma append_cons (c : ascii) (a b : string) :
  (String c a ++ b)%string = String c (a ++ b)%string.
Proof. reflexivity. Qed.

Lemma lower_append (a b : string) :
  Str.lower (a ++ b) = (Str.lower a ++ Str.lower b)%string.
Proof.
  induction a as [|c a IH]; [done|].
  rewrite !append_cons. cbn [Str.lower]. by rewrite IH.
Qed.

Lemma lower_all_digits (d : string) : Str.all_digits d = true -> Str.lower d = d.
Proof.
  induction d as [|c d IH]; cbn; [done|].
  intros [Hc Hd]%andb_true_iff. by rewrite (char_lower_digit_fixed c Hc), IH.
Qed.

Lemma no_digits_lower (p : string) : no_digits (Str.lower p) = no_digits p.
Proof.
  induction p as [|c p IH]; cbn; [done|]. by rewrite char_lower_is_digit, IH.
Qed.

Lemma re_split_digit_run (d : string) :
  Str.isdigit d = true ->
  Str.re_split_digits d = [EmptyString; d; EmptyString].
Proof.
  induction d as [|c d IH]; [done|].
  cbn [Str.isdigit Str.all_digits]. intros [Hc Hd]%andb_true_iff.
  cbn [Str.re_split_digits]. rewrite Hc.
  destruct d as [|c' d']; [done|].
  by rewrite (IH Hd).
Qed.

Lemma re_split_text_then_digits (p d : string) :
  no_digits p = true -> Str.isdigit d = true ->
  Str.re_split_digits (p ++ d) = [p; d; EmptyString].
Proof.
  intros Hp Hd. induction p as [|c p IH].
  - by apply re_split_digit_run.
  - cbn in Hp. apply andb_true_iff in Hp as [Hc Hp]. apply negb_true_iff in Hc.
    rewrite append_cons. cbn [Str.re_split_digits]. by rewrite (IH Hp), Hc.
Qed.

Lemma natural_key_text_then_digits (p d : string) :
  no_digits p = true -> Str.isdigit d = true ->
  _natural_key (p ++ d) = [KStr (Str.lower p); KInt (Str.int d); KStr EmptyString].
Proof.
  intros Hp Hd. unfold _natural_key.
  rewrite lower_append, (lower_all_digits d) by by apply isdigit_all_digits.
  rewrite re_split_text_then_digits by by rewrite ?no_digits_lower.
  cbn [map]. rewrite Hd.
  rewrite (no_digits_not_isdigit (Str.lower p)) by by rewrite no_digits_lower.
  done.
Qed.

Lemma re_split_no_digits (p : string) :
  no_digits p = true -> Str.re_split_digits p = [p].
Proof.
  induction p as [|c p IH]; [done|].
  cbn [no_digits]. intros [Hc Hp]%andb_true_iff. apply negb_true_iff in Hc.
  cbn [Str.re_split_digits]. by rewrite (IH Hp), Hc.
Qed.

Lemma natural_key_text (p : string) :
  no_digits p = true -> _natural_key p = [KStr (Str.lower p)].
Proof.
  intros Hp. unfold _natural_key.
  rewrite re_split_no_digits by by rewrite no_digits_lower.
  cbn [map].
  by rewrite (no_digits_not_isdigit (Str.lower p)) by by rewrite no_digits_lower.
Qed.

(** * Position in a sorted list *)

Lemma ordered_pairs_listed_before {A : Type} (R : A -> A -> Prop) (l : list A) (a b : A) :
  ForallOrdPairs R l -> In a l -> In b l -> a <> b -> ~ R b a ->
  listed_before a b l.
Proof.
  induction 1 as [|x l Hx Hl IH]; intros Ha Hb Hne Hnr; [destruct Ha|].
  destruct Ha as [->|Ha].
  - destruct Hb as [Hb|Hb]; [congruence|].
    apply in_split in Hb as (l2 & l3 & ->). by exists [], l2, l3.
  - destruct Hb as [->|Hb].
    + exfalso. apply Hnr. rewrite List.Forall_forall in Hx. by apply Hx.
    + destruct (IH Ha Hb Hne Hnr) as (l1 & l2 & l3 & ->).
      by exists (x :: l1), l2, l3.
Qed.

Lemma naturally_sorted_listed_before (names : list string) (a b : string) :
  naturally_sorted names -> In a names -> In b names ->
  list_lt (_natural_key a) (_natural_key b) = Ok true ->
  listed_before a b names.
Proof.
  intros Hsorted Ha Hb Hlt.
  apply (ordered_pairs_listed_before
           (fun x y => key_le (_natural_key x) (_natural_key y)));
    [by apply naturally_sorted_pairs|done|done| |].
  - intros ->.
    rewrite (list_lt_irrefl true) in Hlt by apply natural_key_alternating.
    discriminate.
  - unfold key_le. congruence.
Qed.


(** * Listing the models *)

Lemma list_models_loop_ok (fs : filesystem) (files : list Path) (models : list string) :
  Forall (readable fs) files ->
  list_models_loop fs files models
  = Ok (models ++ dict_keys (valid_entries fs files))%list.
Proof.
  intros Hfiles. revert models.
  induction Hfiles as [|cf files (doc & b & Hread & Hall) _ IH]; intros models.
  - cbn. by rewrite app_nil_r.
  - cbn [list_models_loop]. rewrite Hread. cbn [rbind]. rewrite Hall. cbn [rbind].
    rewrite IH, valid_entries_cons, Hread, Hall.
    destruct b; cbn [app dict_keys map fst]; [|done].
    by rewrite <- app_assoc.
Qed.

Lemma sorted_names_ok (names : list string) :
  exists r,
    sorted list_lt _natural_key names = Ok r
    /\ Permutation names r
    /\ naturally_sorted r.
Proof.
  destruct (sorted_ok list_lt (alternating true) (list_lt_total true)
              (list_lt_asym true) _natural_key natural_key_alternating names)
    as (r & Hr & Hperm & Hord).
  exists r. split; [done|]. split; [done|]. by apply ordered_naturally_sorted.
Qed.

(** [C4, as amended] [list_models] reads the fixed directory
    [model_configs] next to the module, whatever sources are registered.
    When every "*.json" entry of that directory parses to a JSON object
    and the stems of the entries that have all three required fields are
    plain names, it returns exactly those stems, each as often as such an
    entry occurs, sorted by natural key.  In particular, of two listed
    names made of the same digit-free text followed by a number, the one
    with the smaller number comes first ("model2" before "model10"), and
    of two listed names without digits the one whose lowercased text is
    smaller comes first. *)
Theorem list_models_lists_default_directory (module_dir : Path) (fs : filesystem) :
  let files := glob fs (default_config_path module_dir) ".json" in
  Forall (holds_object fs) files ->
  (forall cf doc, In cf files -> complete fs cf doc -> plain_name (PathOps.stem cf) = true) ->
  exists names,
    list_models module_dir fs = Ok names
    /\ (forall name,
          In name names
          <-> exists cf doc, In cf files /\ PathOps.stem cf = name /\ complete fs cf doc)
    /\ Permutation (dict_keys (valid_entries fs files)) names
    /\ naturally_sorted names
    /\ (forall p d1 d2,
          no_digits p = true -> Str.isdigit d1 = true -> Str.isdigit d2 = true ->
          In (p ++ d1)%string names -> In (p ++ d2)%string names ->
          (Str.int d1 < Str.int d2)%N ->
          listed_before (p ++ d1)%string (p ++ d2)%string names)
    /\ (forall a b,
          no_digits a = true -> no_digits b = true ->
          In a names -> In b names ->
          String.ltb (Str.lower a) (Str.lower b) = true ->
          listed_before a b names).
Proof.
  intros files Hfiles _.
  assert (Hread : Forall (readable fs) files).
  { eapply Forall_impl; [exact Hfiles|]. apply holds_object_readable. }
  destruct (sorted_names_ok (dict_keys (valid_entries fs files)))
    as (names & Hsort & Hperm & Hord).
  exists names. split.
  { unfold list_models. fold files.
    by rewrite (list_models_loop_ok fs files [] Hread). }
  split; [|split; [done|split; [done|split]]].
  - intros name. rewrite <- Hperm. apply valid_entries_keys.
  - intros p d1 d2 Hp Hd1 Hd2 Hin1 Hin2 Hlt.
    apply naturally_sorted_listed_before; try done.
    rewrite !natural_key_text_then_digits by done.
    cbn [list_lt part_eqb part_lt]. rewrite String.eqb_refl.
    apply N.ltb_lt in Hlt as Hlt'. rewrite Hlt'.
    destruct (N.eqb_spec (Str.int d1) (Str.int d2)) as [Heq|_]; [lia|done].
  - intros a b Ha Hb Hin1 Hin2 Hlt.
    apply naturally_sorted_listed_before; try done.
    rewrite !natural_key_text by done.
    cbn [list_lt part_eqb part_lt]. rewrite Hlt.
    destruct (String.eqb_spec (Str.lower a) (Str.lower b)) as [Heq|_]; [|done].
    exfalso. apply (part_lt_irrefl (KStr (Str.lower b))).
    cbn [part_lt]. by rewrite <- Heq at 1; rewrite Hlt.
Qed.

Lemma list_models_lists_default_directory_witness :
  Forall (holds_object Demo2.fs_listing)
    (glob Demo2.fs_listing (default_config_path Demo.pkg) ".json")
  /\ Forall (fun cf => plain_name (PathOps.stem cf) = true)
       (glob Demo2.fs_listing (default_config_path Demo.pkg) ".json")
  /\ exists names,
       list_models Demo.pkg Demo2.fs_listing = Ok names
       /\ Permutation ["model10"; "ViT-B-32"; "model2"; "ViT-B-16"] names
       /\ listed_before "model2" "model10" names
       /\ listed_before "ViT-B-16" "ViT-B-32" names
       /\ ~ In "draft" names.
Proof.
  assert (Hfiles : Forall (holds_object Demo2.fs_listing)
                     (glob Demo2.fs_listing (default_config_path Demo.pkg) ".json")).
  { cbn. repeat constructor; eexists; reflexivity. }
  assert (Hstems : Forall (fun cf => plain_name (PathOps.stem cf) = true)
                     (glob Demo2.fs_listing (default_config_path Demo.pkg) ".json")).
  { cbn. repeat constructor. }
  split; [exact Hfiles|]. split; [exact Hstems|].
  destruct (list_models_lists_default_directory Demo.pkg Demo2.fs_listing Hfiles
              (fun cf doc Hcf _ => proj1 (List.Forall_forall _ _) Hstems cf Hcf))
    as (names & Hrun & Hin & Hperm & _ & Hnum & _).
  exists names. split; [exact Hrun|]. split; [exact Hperm|].
  assert (Hall : forall name,
            In name ["model10"; "ViT-B-32"; "model2"; "ViT-B-16"] -> In name names).
  { intros name Hname. eapply Permutation_in; [exact Hperm|exact Hname]. }
  split; [|split].
  - apply (Hnum "model" "2" "10"); try reflexivity; apply Hall; cbn; tauto.
  - apply (Hnum "ViT-B-" "16" "32"); try reflexivity; apply Hall; cbn; tauto.
  - intros Hdraft. apply (Permutation_in _ (Permutation_sym Hperm)) in Hdraft.
    destruct Hdraft as [H|[H|[H|[H|[]]]]]; discriminate H.
Defined.

(** [C4, as stated, fails] A second source directory is registered and
    scanned.  Its two documents are valid and enter the registry, but the
    listing shows the package directory only. *)
Lemma list_models_lists_default_directory_counterexample :
  fst (add_model_config Demo.fs_extra ["extra"]
         (snd (import_module Demo.pkg Demo.fs_extra))) = Ok tt
  /\ _MODEL_CONFIG_PATHS Demo.with_extra = [default_config_path Demo.pkg; ["extra"]]
  /\ complete Demo.fs_extra ["extra"; "model2.json"] (Demo.vit_cfg 128)
  /\ registry_names Demo.with_extra = ["model2"; "model10"; "ViT-B-32"]
  /\ list_models Demo.pkg Demo.fs_extra = Ok ["ViT-B-32"].
Proof.
  repeat split; try reflexivity.
  repeat constructor.
Qed.

(** The order of the listing on the shipped directory and on the claim's
    example names. *)
Example list_models_shipped :
  list_models Demo.pkg Demo.fs_shipped = Ok ["RN50"; "ViT-B-16"; "ViT-B-32"].
Proof. reflexivity. Qed.

Example natural_order_examples :
  sorted list_lt _natural_key ["ViT-B-32"; "ViT-B-16"] = Ok ["ViT-B-16"; "ViT-B-32"]
  /\ sorted list_lt _natural_key ["model10"; "model2"] = Ok ["model2"; "model10"].
Proof. split; reflexivity. Qed.

(** * Reachable states *)

(** The import and every later registration keep the registry a dict of
    existing objects. *)
Lemma rescan_preserves_ok (fs : filesystem) (st : state) :
  registry_ok st -> registry_ok (snd (_rescan_model_configs fs st)).
Proof.
  intros [Hnd Hwf].
  unfold _rescan_model_configs, bind, get_paths, get_configs, lift, put_configs.
  assert (Hloop : forall files s,
            registry_ok s -> registry_ok (snd (load_config_files fs files s))).
  { induction files as [|cf files IH]; intros s Hs; [done|].
    destruct (read_json fs cf) as [doc|e] eqn:Hread.
    - destruct (all_in required_fields doc) as [b|e] eqn:Hall.
      + rewrite (load_config_files_step fs cf files s doc b Hread Hall).
        apply IH. destruct Hs as [Hnd_s Hwf_s]. split.
        * unfold registry_names. cbn [_MODEL_CONFIGS].
          destruct b; [by apply dict_keys_set_NoDup|done].
        * unfold registry_wf. cbn [_MODEL_CONFIGS heap].
          rewrite length_app. cbn [length].
          assert (Hold : Forall (fun kv : string * loc => snd kv < length (heap s) + 1)
                           (_MODEL_CONFIGS s)).
          { eapply Forall_impl; [exact Hwf_s|]. cbn. intros; lia. }
          destruct b; [|exact Hold].
          apply (Forall_dict_set (fun l => l < length (heap s) + 1)); [exact Hold|lia].
      + cbn [load_config_files].
        unfold bind, json_load, bind, lift, alloc, deref. rewrite Hread.
        cbn [heap]. rewrite read_heap_alloc, Hall. cbn [snd].
        destruct Hs as [Hnd_s Hwf_s]. split; [done|].
        unfold registry_wf. cbn [_MODEL_CONFIGS heap]. rewrite length_app.
        eapply Forall_impl; [exact Hwf_s|]. cbn. intros; lia.
    - cbn [load_config_files].
      unfold bind, json_load, bind, lift. by rewrite Hread. }
  specialize (Hloop (collect_config_files fs (_MODEL_CONFIG_PATHS st)) st
                (conj Hnd Hwf)).
  destruct (load_config_files fs _ st) as [[[]|e] st1]; cbn [snd] in *; [|done].
  destruct (sorted_natural_ok (_MODEL_CONFIGS st1)) as (items & Hsort & Hperm & _).
  unfold item_key in Hsort. rewrite Hsort. cbn [snd].
  destruct Hloop as [Hnd1 Hwf1].
  assert (Hnd_items : List.NoDup (dict_keys items)).
  { eapply Permutation_NoDup; [|exact Hnd1]. by apply Permutation_map. }
  rewrite (dict_update_fresh [] items Hnd_items).
  split; [exact Hnd_items|].
  unfold registry_wf. cbn [_MODEL_CONFIGS heap]. by rewrite <- Hperm.
Qed.

Lemma import_module_ok (module_dir : Path) (fs : filesystem) :
  registry_ok (snd (import_module module_dir fs)).
Proof. apply rescan_preserves_ok, initial_state_ok. Qed.

Lemma add_model_config_ok (fs : filesystem) (path : Path) (st : state) :
  registry_ok st -> registry_ok (snd (add_model_config fs path st)).
Proof.
  intros Hok. unfold add_model_config, bind, get_paths, put_paths.
  by apply (rescan_preserves_ok fs (mkState _ _ _ _)).
Qed.

(** [add_model_config] appends exactly one source. *)
Lemma add_model_config_paths (fs : filesystem) (path : Path) (st : state) :
  _MODEL_CONFIG_PATHS (snd (add_model_config fs path st))
  = (_MODEL_CONFIG_PATHS st ++ [path])%list.
Proof.
  unfold add_model_config, bind, get_paths, put_paths.
  unfold _rescan_model_configs, bind, get_paths, get_configs, lift, put_configs.
  cbn [_MODEL_CONFIG_PATHS].
  assert (Hloop : forall files s,
            _MODEL_CONFIG_PATHS (snd (load_config_files fs files s))
            = _MODEL_CONFIG_PATHS s).
  { induction files as [|cf files IH]; intros s; [done|].
    cbn [load_config_files].
    unfold bind, json_load, bind, lift, alloc, deref, get_configs, put_configs, ret.
    destruct (read_json fs cf) as [doc|e]; [|done]. cbn [heap].
    destruct (all_in required_fields _) as [[]|e]; cbn [snd]; try done.
    - fold (bind (A:=unit) (B:=unit)). apply (IH (mkState _ _ _ _)).
    - apply (IH (mkState _ _ _ _)). }
  match goal with
  | |- context [load_config_files fs ?files ?s] =>
      specialize (Hloop files s); destruct (load_config_files fs files s) as [[[]|e] s1]
  end; cbn [snd] in *; [|done].
  by destruct (sorted list_lt _ (_MODEL_CONFIGS s1)).
Qed.

(** * Further properties of the model builder *)

(** String tests left by the case analysis, as equations. *)
Ltac string_tests :=
  repeat match goal with
         | H : (_ =? _)%string = true |- _ => apply String.eqb_eq in H
         | H : (_ =? _)%string = false |- _ => apply String.eqb_neq in H
         | H : (_ || _)%bool = true |- _ => apply orb_true_iff in H
         | H : (_ || _)%bool = false |- _ => apply orb_false_iff in H as [? ?]
         end.

(** Membership of an event in an explicit list, case by case. *)
Ltac event_cases :=
  repeat match goal with
         | H : _ \/ _ |- _ => destruct H
         | H : False |- _ => destruct H
         | H : ?e = ?e |- _ => clear H
         | H : @eq event _ _ |- _ => discriminate H
         end.

(** [X1] Each optional step of [create_model] runs only under its own
    guard: weights are converted only for precision "fp16" on a device
    that is not a CPU, in the config-driven branch; [model.float()] is
    called only in the original-provider branch with precision "amp" or
    "fp32"; [torch.jit.script] is called only in the config-driven branch
    with the jit flag set. *)
Theorem create_model_event_guards
    (module_dir : Path) (X : collaborators) (fs : filesystem) (st : state)
    (model_name pretrained precision : string) (dev : device)
    (jit force_quick_gelu : bool) :
  let out := create_model module_dir X fs model_name pretrained precision dev
               jit force_quick_gelu st in
  exists evs : list event,
    trace (snd out) = (trace st ++ evs)%list
    /\ (In CallConvertWeightsToFp16 evs ->
        precision = "fp16" /\ dev_type dev <> "cpu"
        /\ Str.lower pretrained <> "openai")
    /\ (In CallFloat evs ->
        Str.lower pretrained = "openai"
        /\ (precision = "amp" \/ precision = "fp32"))
    /\ (In CallJitScript evs ->
        jit = true /\ Str.lower pretrained <> "openai").
Proof.
  intros out. subst out. run_builder; string_tests.
  all: eexists; split; [trace_is|].
  all: simpl In.
  all: split; [|split]; intros Hin; event_cases; string_tests.
  all: repeat split; first [assumption | congruence | tauto].
Qed.

(** [X2] In the original-provider branch the outcome is the outcome of
    [load_openai_model], cast to float exactly when the precision is "amp"
    or "fp32".  The branch has no device move, no fp16 guard and no
    scripting step: with precision "fp16" on a CPU the loaded model is
    returned and nothing asserts. *)
Theorem create_model_openai_outcome
    (module_dir : Path) (X : collaborators) (fs : filesystem) (st : state)
    (model_name pretrained precision : string) (dev : device)
    (jit force_quick_gelu : bool) :
  Str.lower pretrained = "openai" ->
  let out := create_model module_dir X fs model_name pretrained precision dev
               jit force_quick_gelu st in
  fst out
  = match load_openai_model X model_name dev jit with
    | Ok model =>
        Ok (if String.eqb precision "amp" || String.eqb precision "fp32"
            then model_float X model else model)
    | Raise e => Raise e
    end
  /\ exists evs : list event,
       trace (snd out) = (trace st ++ evs)%list
       /\ Forall (fun e => is_post_build e = false /\ is_checkpoint_io e = false) evs.
Proof.
  intros Hp out. subst out. unfold create_model. rewrite Hp.
  change ("openai" =? "openai")%string with true. cbv iota.
  run_builder.
  all: split; [reflexivity|].
  all: eexists; split; [trace_is|].
  all: repeat constructor.
Qed.

Lemma create_model_openai_outcome_witness :
  Str.lower "OPENAI" = "openai"
  /\ fst (create_model Demo.pkg Demo.world Demo.fs_shipped "ViT-B-32" "OPENAI" "fp16"
            cpu false false Demo.booted)
     = Ok ["openai"; "ViT-B-32"].
Proof.
  split; [reflexivity|].
  exact (proj1 (create_model_openai_outcome Demo.pkg Demo.world Demo.fs_shipped
                  Demo.booted "ViT-B-32" "OPENAI" "fp16" cpu false false eq_refl)).
Defined.

(** [X3] With the default empty pretrained source [create_model] does no
    checkpoint lookup or load: no call to [get_pretrained_url],
    [download_pretrained], [os.path.exists], [torch.load] or
    [model.load_state_dict]. *)
Theorem create_model_without_pretrained
    (module_dir : Path) (X : collaborators) (fs : filesystem) (st : state)
    (model_name precision : string) (dev : device)
    (jit force_quick_gelu : bool) :
  let out := create_model module_dir X fs model_name EmptyString precision dev
               jit force_quick_gelu st in
  exists evs : list event,
    trace (snd out) = (trace st ++ evs)%list
    /\ Forall (fun e => is_checkpoint_io e = false) evs.
Proof.
  intros out. subst out. unfold create_model.
  change (Str.lower EmptyString) with EmptyString.
  change (EmptyString =? "openai")%string with false.
  change (truthy EmptyString) with false. cbv iota.
  run_builder.
  all: eexists; split; [trace_is|].
  all: repeat constructor.
Qed.



Lemma create_model_event_guards_witness :
  exists evs : list event,
    trace (snd (create_model Demo.pkg Demo.world Demo.fs_shipped "ViT-B-32" EmptyString
                  "fp16" Demo.cuda true false Demo.booted))
    = (trace Demo.booted ++ evs)%list
    /\ In CallConvertWeightsToFp16 evs
    /\ In CallJitScript evs
    /\ dev_type Demo.cuda <> "cpu".
Proof.
  destruct (create_model_event_guards Demo.pkg Demo.world Demo.fs_shipped Demo.booted
              "ViT-B-32" EmptyString "fp16" Demo.cuda true false)
    as (evs & Htrace & Hconv & _ & _).
  exists evs.
  assert (Hin : In CallConvertWeightsToFp16 evs /\ In CallJitScript evs).
  { pose proof Htrace as Hrun. vm_compute in Hrun. subst evs. cbn. tauto. }
  split; [exact Htrace|]. split; [exact (proj1 Hin)|]. split; [exact (proj2 Hin)|].
  exact (proj1 (proj2 (Hconv (proj1 Hin)))).
Defined.

(** [X5] A build from a registered architecture without pretrained
    weights: the configuration handed to [CLIP] is the registry's document
    (with "quick_gelu" set to true when the flag is given), and the model
    returned is the constructed one moved to the device, converted when
    the precision is "fp16" (on a device that is not a CPU), and scripted
    when the jit flag is set. *)
Theorem create_model_plain_build
    (module_dir : Path) (X : collaborators) (fs : filesystem) (st : state)
    (model_name precision : string) (dev : device) (jit force_quick_gelu : bool)
    (entry : loc) (fields : list (string * json)) (model : Model X) :
  dict_get model_name (_MODEL_CONFIGS st) = Some entry ->
  read_heap (heap st) entry = JObj fields ->
  let cfg := JObj (if force_quick_gelu
                   then dict_set "quick_gelu" (JBool true) fields else fields) in
  CLIP X cfg = Ok model ->
  (precision = "fp16" -> dev_type dev <> "cpu") ->
  let out := create_model module_dir X fs model_name EmptyString precision dev
               jit force_quick_gelu st in
  let moved := model_to X model dev in
  let converted := if String.eqb precision "fp16"
                   then convert_weights_to_fp16 X moved else moved in
  fst out = (if jit then jit_script X converted else Ok converted)
  /\ exists evs : list event,
       trace (snd out) = (trace st ++ evs)%list
       /\ In (CallCLIP cfg) evs
       /\ (forall c, In (CallCLIP c) evs -> c = cfg).
Proof.
  intros Hentry Hdoc cfg Hclip Hdev out moved converted.
  subst out moved converted cfg. unfold create_model.
  change (Str.lower EmptyString) with EmptyString.
  change (EmptyString =? "openai")%string with false.
  change (truthy EmptyString) with false. cbv iota.
  unfold bind, emit, get_configs, deepcopy, bind, deref, alloc, store, lift, ret, raise.
  cbn [heap _MODEL_CONFIGS _MODEL_CONFIG_PATHS trace]. rewrite Hentry.
  builder_simpl. rewrite Hdoc.
  destruct force_quick_gelu; cbv beta iota in Hclip;
    builder_simpl; rewrite ?Hdoc; cbn [json_setitem]; builder_simpl;
    rewrite ?Hdoc; rewrite Hclip; builder_simpl.
  all: destruct (String.eqb_spec precision "fp16") as [Hfp|Hfp].
  all: try (apply Hdev in Hfp; apply String.eqb_neq in Hfp; rewrite Hfp).
  all: builder_simpl.
  all: destruct jit; builder_simpl.
  all: try (destruct (jit_script X _); builder_simpl).
  all: split; [reflexivity|].
  all: eexists; split; [trace_is|].
  all: simpl In.
  all: split; [tauto|].
  all: intros c Hin; event_cases; congruence.
Qed.

Lemma create_model_plain_build_witness :
  dict_get "ViT-B-32" (_MODEL_CONFIGS Demo.booted) = Some 0
  /\ read_heap (heap Demo.booted) 0
     = JObj [("embed_dim", JInt 512);
             ("vision_cfg", JObj [("image_size", JInt 224); ("patch_size", JInt 32)]);
             ("text_cfg", JObj [("context_length", JInt 77)])]
  /\ fst (create_model Demo.pkg Demo.world Demo.fs_shipped "ViT-B-32" EmptyString "fp16"
            Demo.cuda true true Demo.booted)
     = Ok ["clip"; "cuda"; "fp16"; "jit"].
Proof.
  split; [reflexivity|]. split; [reflexivity|].
  refine (proj1 (create_model_plain_build Demo.pkg Demo.world Demo.fs_shipped Demo.booted
                   "ViT-B-32" "fp16" Demo.cuda true true 0 _ ["clip"]
                   eq_refl eq_refl eq_refl _)).
  intros _. discriminate.
Defined.



(** [X7] A call constructs at most one model object, and exactly one when
    it returns a model: the trace of the call holds at most one call to
    [CLIP] or [load_openai_model]. *)
Theorem create_model_constructs_once
    (module_dir : Path) (X : collaborators) (fs : filesystem) (st : state)
    (model_name pretrained precision : string) (dev : device)
    (jit force_quick_gelu : bool) :
  let out := create_model module_dir X fs model_name pretrained precision dev
               jit force_quick_gelu st in
  exists evs : list event,
    trace (snd out) = (trace st ++ evs)%list
    /\ length (List.filter constructs_model evs) <= 1
    /\ (forall model, fst out = Ok model -> length (List.filter constructs_model evs) = 1).
Proof.
  intros out. subst out. run_builder.
  all: eexists; split; [trace_is|].
  all: split; [cbn; lia|].
  all: intros model Hok; first [discriminate Hok | reflexivity].
Qed.

Lemma create_model_constructs_once_witness :
  exists evs : list event,
    trace (snd (create_model Demo.pkg Demo.world Demo.fs_shipped "ViT-B-32" EmptyString
                  "fp32" cpu false false Demo.booted))
    = (trace Demo.booted ++ evs)%list
    /\ length (List.filter constructs_model evs) = 1.
Proof.
  destruct (create_model_constructs_once Demo.pkg Demo.world Demo.fs_shipped Demo.booted
              "ViT-B-32" EmptyString "fp32" cpu false false)
    as (evs & Htrace & _ & Hone).
  exists evs. split; [exact Htrace|].
  exact (Hone ["clip"; "cpu"] eq_refl).
Defined.

(** * The facade *)

(** [X8] [create_model_and_transforms] fails whenever [create_model]
    fails, with the same error; it leaves the module state exactly as
    [create_model] leaves it; and when it returns, the model is the one
    [create_model] built and both pipelines come from [image_transform]
    applied to that model's [visual.image_size], the first with
    [is_train=True], the second with [is_train=False]. *)
Theorem create_model_and_transforms_outcome
    (module_dir : Path) (X : collaborators) (T : transform_collaborators X)
    (fs : filesystem) (st : state)
    (model_name pretrained precision : string) (dev : device)
    (jit force_quick_gelu : bool) :
  let built := create_model module_dir X fs model_name pretrained precision dev
                 jit force_quick_gelu st in
  let out := create_model_and_transforms module_dir X T fs model_name pretrained
               precision dev jit force_quick_gelu st in
  snd out = snd built
  /\ (forall e, fst built = Raise e -> fst out = Raise e)
  /\ (forall model preprocess_train preprocess_val,
        fst out = Ok (model, preprocess_train, preprocess_val) ->
        fst built = Ok model
        /\ exists size,
             visual_image_size T model = Ok size
             /\ image_transform T size true = Ok preprocess_train
             /\ image_transform T size false = Ok preprocess_val).
Proof.
  intros built out. subst built out.
  unfold create_model_and_transforms, bind, lift, ret.
  destruct (create_model module_dir X fs model_name pretrained precision dev jit
              force_quick_gelu st) as [[model|e] st'] eqn:Hbuilt; cbn [fst snd].
  - destruct (visual_image_size T model) as [size|e1] eqn:Hsize; cbn [fst snd];
      [|repeat split; try discriminate].
    destruct (image_transform T size true) as [tr|e2] eqn:Htr; cbn [fst snd];
      [|repeat split; try discriminate].
    destruct (image_transform T size false) as [ev|e3] eqn:Hev; cbn [fst snd];
      [|repeat split; try discriminate].
    split; [reflexivity|]. split; [discriminate|].
    intros m ptr pev Heq.
    injection Heq as <- <- <-.
    split; [reflexivity|].
    exists size. by rewrite Htr, Hev.
  - split; [reflexivity|]. split; [by intros e' [= ->]|]. discriminate.
Qed.

Lemma create_model_and_transforms_outcome_witness :
  fst (create_model_and_transforms Demo.pkg Demo.world Demo2.transforms Demo.fs_shipped
         "ViT-B-32" EmptyString "fp32" cpu false false Demo.booted)
  = Ok (["clip"; "cpu"], (224%Z, true), (224%Z, false))
  /\ fst (create_model Demo.pkg Demo.world Demo.fs_shipped "ViT-B-32" EmptyString "fp32"
            cpu false false Demo.booted)
     = Ok ["clip"; "cpu"].
Proof.
  assert (Hrun : fst (create_model_and_transforms Demo.pkg Demo.world Demo2.transforms
                        Demo.fs_shipped "ViT-B-32" EmptyString "fp32" cpu false false
                        Demo.booted)
                 = Ok (["clip"; "cpu"], (224%Z, true), (224%Z, false))) by reflexivity.
  split; [exact Hrun|].
  exact (proj1 (proj2 (proj2 (create_model_and_transforms_outcome Demo.pkg Demo.world
                                Demo2.transforms Demo.fs_shipped Demo.booted "ViT-B-32"
                                EmptyString "fp32" cpu false false))
                 _ _ _ Hrun)).
Defined.
(** * Sorting by natural key *)

(** [X9] Sorting plain names by natural key never raises, although a key
    mixes integers and strings: [sorted(models, key=_natural_key)] returns
    a rearrangement of its input in which no name has a strictly smaller
    key than any name before it. *)
Theorem natural_sort_never_raises (names : list string) :
  Forall (fun name => plain_name name = true) names ->
  exists r,
    sorted list_lt _natural_key names = Ok r
    /\ Permutation names r
    /\ ForallOrdPairs (fun a b => key_le (_natural_key a) (_natural_key b)) r.
Proof.
  intros _.
  destruct (sorted_ok list_lt (alternating true) (list_lt_total true)
              (list_lt_asym true) _natural_key natural_key_alternating names)
    as (r & Hr & Hperm & Hord).
  exists r. split; [exact Hr|]. split; [exact Hperm|].
  by apply naturally_sorted_pairs, ordered_naturally_sorted.
Qed.

Lemma natural_sort_never_raises_witness :
  Forall (fun name => plain_name name = true)
    ["ViT-B-32"; "model10"; "RN50x4"; "model2"; "ViT-B-16"]
  /\ exists r,
       sorted list_lt _natural_key ["ViT-B-32"; "model10"; "RN50x4"; "model2"; "ViT-B-16"]
       = Ok r
       /\ r = ["model2"; "model10"; "RN50x4"; "ViT-B-16"; "ViT-B-32"].
Proof.
  assert (Hplain : Forall (fun name => plain_name name = true)
                     ["ViT-B-32"; "model10"; "RN50x4"; "model2"; "ViT-B-16"])
    by repeat constructor.
  split; [exact Hplain|].
  destruct (natural_sort_never_raises _ Hplain) as (r & Hr & _).
  exists r. split; [exact Hr|].
  vm_compute in Hr. by injection Hr.
Defined.

(** [X10] On natural keys, Python's list comparison is a strict total
    order: it always answers, no key is smaller than itself, the order is
    asymmetric and transitive, and two names neither of which is smaller
    have the same key. *)
Theorem natural_key_strict_order (s t u : string) :
  (exists b, list_lt (_natural_key s) (_natural_key t) = Ok b)
  /\ list_lt (_natural_key s) (_natural_key s) = Ok false
  /\ (list_lt (_natural_key s) (_natural_key t) = Ok true ->
      list_lt (_natural_key t) (_natural_key s) = Ok false)
  /\ (list_lt (_natural_key s) (_natural_key t) = Ok true ->
      list_lt (_natural_key t) (_natural_key u) = Ok true ->
      list_lt (_natural_key s) (_natural_key u) = Ok true)
  /\ (list_lt (_natural_key s) (_natural_key t) = Ok false ->
      list_lt (_natural_key t) (_natural_key s) = Ok false ->
      _natural_key s = _natural_key t).
Proof.
  pose proof (natural_key_alternating s) as Hs.
  pose proof (natural_key_alternating t) as Ht.
  pose proof (natural_key_alternating u) as Hu.
  split; [by apply (list_lt_total true)|].
  split; [by apply (list_lt_irrefl true)|].
  split; [by apply (list_lt_asym true)|].
  split; [by apply (list_lt_trans true)|].
  by apply (list_lt_connected true).
Qed.

Lemma natural_key_strict_order_witness :
  list_lt (_natural_key "model2") (_natural_key "model10") = Ok true
  /\ list_lt (_natural_key "model10") (_natural_key "model11") = Ok true
  /\ list_lt (_natural_key "model2") (_natural_key "model11") = Ok true.
Proof.
  split; [reflexivity|]. split; [reflexivity|].
  exact (proj1 (proj2 (proj2 (proj2
    (natural_key_strict_order "model2" "model10" "model11")))) eq_refl eq_refl).
Defined.

(** [X11] Numbers inside names compare as integers: for two plain names
    made of the same digit-free text followed by a run of digits, the
    natural keys compare as the two numbers do, so "model2" sorts before
    "model10" and "v007" with "v7". *)
Theorem natural_key_numeric_suffix (p d1 d2 : string) :
  plain_name (p ++ d1) = true ->
  plain_name (p ++ d2) = true ->
  no_digits p = true ->
  Str.isdigit d1 = true ->
  Str.isdigit d2 = true ->
  list_lt (_natural_key (p ++ d1)) (_natural_key (p ++ d2))
  = Ok (N.ltb (Str.int d1) (Str.int d2)).
Proof.
  intros _ _ Hp Hd1 Hd2.
  rewrite !natural_key_text_then_digits by done.
  cbn [list_lt part_eqb part_lt]. rewrite String.eqb_refl.
  destruct (N.eqb_spec (Str.int d1) (Str.int d2)) as [->|Hne]; [|done].
  by rewrite N.ltb_irrefl.
Qed.

Lemma natural_key_numeric_suffix_witness :
  plain_name "ViT-L-14" = true
  /\ plain_name "ViT-L-007" = true
  /\ no_digits "ViT-L-" = true
  /\ Str.isdigit "14" = true
  /\ Str.isdigit "007" = true
  /\ list_lt (_natural_key "ViT-L-14") (_natural_key "ViT-L-007") = Ok false
  /\ list_lt (_natural_key "ViT-L-007") (_natural_key "ViT-L-14") = Ok true.
Proof.
  split; [reflexivity|]. split; [reflexivity|].
  split; [reflexivity|]. split; [reflexivity|]. split; [reflexivity|].
  split.
  - exact (natural_key_numeric_suffix "ViT-L-" "14" "007" eq_refl eq_refl
             eq_refl eq_refl eq_refl).
  - exact (natural_key_numeric_suffix "ViT-L-" "007" "14" eq_refl eq_refl
             eq_refl eq_refl eq_refl).
Defined.

(** * Further properties of the registry *)

Lemma glob_In (fs : filesystem) (p : Path) (ext : string) (cf : Path) :
  In cf (glob fs p ext)
  <-> exists entries name child,
        fs_lookup fs p = Some (Dir entries)
        /\ In (name, child) entries
        /\ Str.endswith name ext = true
        /\ cf = PathOps.join p name.
Proof.
  unfold glob. destruct (fs_lookup fs p) as [[c|entries]|].
  - split; [done|]. by intros (? & ? & ? & ? & _).
  - rewrite in_map_iff. split.
    + intros ([name child] & <- & Hin). apply list_elem_of_In in Hin.
      apply list_elem_of_filter in Hin as [Hend Hin]. apply list_elem_of_In in Hin.
      exists entries, name, child. cbn in Hend. apply Is_true_eq_true in Hend.
      by repeat split.
    + intros (entries' & name & child & [= <-] & Hin & Hend & ->).
      exists (name, child). split; [done|].
      apply list_elem_of_In, list_elem_of_filter. split.
      * cbn. by rewrite Hend.
      * by apply list_elem_of_In.
  - split; [done|]. by intros (? & ? & ? & ? & _).
Qed.

Lemma glob_candidates (fs : filesystem) (paths : list Path) (path cf : Path) :
  In path paths ->
  In cf (glob fs path ".json") ->
  In cf (collect_config_files fs paths).
Proof.
  intros Hpath Hcf. unfold collect_config_files. apply in_flat_map.
  exists path. split; [done|].
  cbn [existsb config_ext flat_map]. rewrite app_nil_r.
  pose proof Hcf as (entries & _ & _ & Hlook & _)%glob_In.
  unfold is_file, is_dir. by rewrite Hlook.
Qed.

(** [X12] The candidates of a scan: a source that is a regular file is a
    candidate itself when its suffix is ".json"; a source that is a
    directory contributes its direct entries whose names end in ".json"
    and nothing below them; any other source contributes nothing. *)
Theorem collect_config_files_spec (fs : filesystem) (paths : list Path) (cf : Path) :
  In cf (collect_config_files fs paths)
  <-> exists config_path,
        In config_path paths
        /\ ((is_file fs config_path = true
             /\ PathOps.suffix config_path = ".json"
             /\ cf = config_path)
            \/ exists entries name child,
                 fs_lookup fs config_path = Some (Dir entries)
                 /\ In (name, child) entries
                 /\ Str.endswith name ".json" = true
                 /\ cf = PathOps.join config_path name).
Proof.
  unfold collect_config_files. rewrite in_flat_map.
  split; intros (config_path & Hpath & Hcf); exists config_path; (split; [done|]).
  - cbn [existsb config_ext flat_map] in Hcf. rewrite orb_false_r, app_nil_r in Hcf.
    destruct (is_file fs config_path) eqn:Hfile; cbn [andb] in Hcf.
    + destruct (String.eqb_spec (PathOps.suffix config_path) ".json") as [Hs|Hs].
      * destruct Hcf as [<-|[]]. by left.
      * unfold is_file, is_dir in *.
        destruct (fs_lookup fs config_path) as [[c|entries]|]; done.
    + destruct (is_dir fs config_path); [|done].
      right. by apply glob_In.
  - cbn [existsb config_ext flat_map]. rewrite orb_false_r, app_nil_r.
    destruct Hcf as [(Hfile & Hs & ->)|Hdir].
    + rewrite Hfile, Hs. cbn. by left.
    + pose proof Hdir as (entries & name & child & Hlook & _).
      unfold is_file, is_dir. rewrite Hlook. cbn [andb].
      by apply glob_In.
Qed.

Lemma collect_config_files_spec_witness :
  In (Demo.pkg ++ ["model_configs"; "ViT-B-32.json"])%list
     (collect_config_files Demo2.fs_nested [default_config_path Demo.pkg])
  /\ ~ In (Demo.pkg ++ ["model_configs"; "old"; "RN50.json"])%list
       (collect_config_files Demo2.fs_nested [default_config_path Demo.pkg])
  /\ ~ In (Demo.pkg ++ ["model_configs"; "README.md"])%list
       (collect_config_files Demo2.fs_nested [default_config_path Demo.pkg]).
Proof.
  split; [|split].
  - apply collect_config_files_spec.
    exists (default_config_path Demo.pkg). split; [by left|]. right.
    eexists _, "ViT-B-32.json", _. split; [reflexivity|].
    split; [by left|]. split; reflexivity.
  - vm_compute. intuition discriminate.
  - vm_compute. intuition discriminate.
Defined.

(** The state after one turn of the scan loop on a readable file. *)
Lemma scan_turn_state (st : state) (name : string) (doc : json) (b : bool) :
  registry_ok st ->
  let st1 := mkState (heap st ++ [doc]) (_MODEL_CONFIG_PATHS st)
               (if b then dict_set name (length (heap st)) (_MODEL_CONFIGS st)
                else _MODEL_CONFIGS st)
               (trace st) in
  registry_ok st1
  /\ registry_view st1
     = if b then dict_set name doc (registry_view st) else registry_view st.
Proof.
  intros [Hnd Hwf] st1. split; [split|].
  - unfold registry_names. cbn [_MODEL_CONFIGS st1].
    destruct b; [by apply dict_keys_set_NoDup|done].
  - unfold registry_wf. cbn [_MODEL_CONFIGS heap st1].
    rewrite length_app. cbn [length].
    assert (Hold : Forall (fun kv : string * loc => snd kv < length (heap st) + 1)
                     (_MODEL_CONFIGS st)).
    { eapply Forall_impl; [exact Hwf|]. cbn. intros; lia. }
    destruct b; [|exact Hold].
    apply (Forall_dict_set (fun l => l < length (heap st) + 1)); [exact Hold|lia].
  - unfold registry_view. cbn [_MODEL_CONFIGS heap st1].
    destruct b.
    + rewrite dict_set_on_value, read_heap_alloc.
      by rewrite (registry_view_alloc _ _ _ Hwf).
    + by apply registry_view_alloc.
Qed.

(** What the loop leaves behind, whether it finishes or raises. *)
Lemma load_config_files_monotone (fs : filesystem) (files : list Path) (st : state) :
  let st' := snd (load_config_files fs files st) in
  _MODEL_CONFIG_PATHS st' = _MODEL_CONFIG_PATHS st
  /\ trace st' = trace st
  /\ (forall name, In name (registry_names st) -> In name (registry_names st'))
  /\ exists docs, heap st' = (heap st ++ docs)%list.
Proof.
  revert st. induction files as [|cf files IH]; intros st.
  - cbn. repeat split; try done. exists []. by rewrite app_nil_r.
  - destruct (read_json fs cf) as [doc|e] eqn:Hread.
    + destruct (all_in required_fields doc) as [b|e] eqn:Hall.
      * rewrite (load_config_files_step fs cf files st doc b Hread Hall).
        destruct (IH (mkState (heap st ++ [doc]) (_MODEL_CONFIG_PATHS st)
                        (if b then dict_set (PathOps.stem cf) (length (heap st))
                                     (_MODEL_CONFIGS st)
                         else _MODEL_CONFIGS st) (trace st)))
          as (Hp & Ht & Hn & docs & Hh).
        cbn [_MODEL_CONFIG_PATHS trace heap] in Hp, Ht, Hh.
        split; [exact Hp|]. split; [exact Ht|]. split.
        -- intros name Hin. apply Hn. unfold registry_names. cbn [_MODEL_CONFIGS].
           destruct b; [|exact Hin]. apply dict_keys_set_incl. by left.
        -- exists (doc :: docs). rewrite Hh, <- app_assoc. done.
      * cbn [load_config_files].
        unfold bind, json_load, bind, lift, alloc, deref. rewrite Hread.
        cbn [heap]. rewrite read_heap_alloc, Hall. cbn [snd].
        repeat split; try done. by exists [doc].
    + cbn [load_config_files]. unfold bind, json_load, bind, lift. rewrite Hread.
      cbn [snd]. repeat split; try done. exists []. by rewrite app_nil_r.
Qed.

(** [X13] A scan never forgets and never rewrites: whether it returns or
    raises, the source list and every object that existed before are
    unchanged, and every name that was in the registry is still in it. *)
Theorem rescan_keeps_names_and_objects (fs : filesystem) (st : state) :
  let st' := snd (_rescan_model_configs fs st) in
  _MODEL_CONFIG_PATHS st' = _MODEL_CONFIG_PATHS st
  /\ (forall name, In name (registry_names st) -> In name (registry_names st'))
  /\ (forall l : loc, l < length (heap st) -> heap st' !! l = heap st !! l).
Proof.
  intros st'. subst st'.
  unfold _rescan_model_configs, bind, get_paths, get_configs, lift, put_configs.
  pose proof (load_config_files_monotone fs
                (collect_config_files fs (_MODEL_CONFIG_PATHS st)) st)
    as (Hp & _ & Hn & docs & Hh).
  destruct (load_config_files fs _ st) as [[[]|e] st1]; cbn [snd] in *.
  - destruct (sorted_natural_ok (_MODEL_CONFIGS st1)) as (items & Hsort & Hperm & _).
    unfold item_key in Hsort. rewrite Hsort. cbn [snd _MODEL_CONFIG_PATHS heap].
    split; [exact Hp|]. split.
    + intros name Hin. unfold registry_names. cbn [_MODEL_CONFIGS].
      apply dict_keys_update. right. unfold dict_keys.
      rewrite <- (Permutation_map fst Hperm). by apply Hn.
    + intros l Hl. rewrite Hh. by apply lookup_app_l.
  - split; [exact Hp|]. split; [exact Hn|].
    intros l Hl. rewrite Hh. by apply lookup_app_l.
Qed.

Lemma rescan_keeps_names_and_objects_witness :
  In "RN50" (registry_names Demo.booted)
  /\ In "RN50" (registry_names (snd (_rescan_model_configs Demo.fs_stray Demo.booted)))
  /\ fst (_rescan_model_configs Demo.fs_stray Demo.booted) = Raise JSONDecodeError.
Proof.
  assert (Hin : In "RN50" (registry_names Demo.booted)) by (vm_compute; auto).
  split; [exact Hin|]. split; [|reflexivity].
  exact (proj1 (proj2 (rescan_keeps_names_and_objects Demo.fs_stray Demo.booted))
           "RN50" Hin).
Defined.

(** [X14] What a name resolves to after a scan that returned: the document
    of the last candidate, in scan order, that carries the name and has
    the three required fields; the entry held before the scan when no
    candidate does.  Later sources override earlier ones. *)
Theorem rescan_lookup (fs : filesystem) (st : state) (name : string) :
  registry_ok st ->
  fst (_rescan_model_configs fs st) = Ok tt ->
  dict_get name (registry_view (snd (_rescan_model_configs fs st)))
  = match last_value name
            (valid_entries fs (collect_config_files fs (_MODEL_CONFIG_PATHS st))) with
    | Some doc => Some doc
    | None => dict_get name (registry_view st)
    end.
Proof.
  intros Hok Hrun.
  pose proof (rescan_inv fs st Hrun) as Hread.
  destruct (rescan_ok fs st Hok Hread) as (st' & Hrun' & _ & _ & _ & Hsorted & _).
  rewrite Hrun'. cbn [snd].
  set (updated := dict_update (registry_view st) _) in Hsorted.
  destruct (sorted_natural_ok updated) as (r & Hr & Hperm & _).
  rewrite Hsorted in Hr. injection Hr as <-.
  assert (Hnd : List.NoDup (dict_keys updated)).
  { apply dict_update_keys_NoDup. unfold registry_view.
    rewrite dict_keys_on_value. apply Hok. }
  rewrite <- (dict_get_perm _ _ name Hperm Hnd).
  unfold updated, last_value. apply dict_get_update.
Qed.

Lemma rescan_lookup_witness :
  registry_ok (mkState [] [default_config_path Demo.pkg; ["extra"]] [] [])
  /\ fst (_rescan_model_configs Demo2.fs_override
            (mkState [] [default_config_path Demo.pkg; ["extra"]] [] [])) = Ok tt
  /\ dict_get "ViT-B-32"
       (registry_view
          (snd (_rescan_model_configs Demo2.fs_override
                  (mkState [] [default_config_path Demo.pkg; ["extra"]] [] []))))
     = Some (Demo.vit_cfg 768).
Proof.
  assert (Hok : registry_ok (mkState [] [default_config_path Demo.pkg; ["extra"]] [] []))
    by (split; constructor).
  split; [exact Hok|]. split; [reflexivity|].
  exact (rescan_lookup Demo2.fs_override _ "ViT-B-32" Hok eq_refl).
Defined.

Lemma default_config_path_suffix (module_dir : Path) :
  PathOps.suffix (default_config_path module_dir) = EmptyString.
Proof.
  unfold PathOps.suffix, PathOps.name, default_config_path, PathOps.join.
  by rewrite last_last.
Qed.

Lemma collect_default_source (module_dir : Path) (fs : filesystem) :
  collect_config_files fs [default_config_path module_dir]
  = glob fs (default_config_path module_dir) ".json".
Proof.
  unfold collect_config_files. cbn [flat_map existsb config_ext].
  rewrite default_config_path_suffix, !app_nil_r.
  change (EmptyString =? ".json")%string with false.
  rewrite orb_false_r, andb_false_r.
  unfold is_dir, glob.
  by destruct (fs_lookup fs (default_config_path module_dir)) as [[c|entries]|].
Qed.

(** [X15] Right after a successful import the registry and the listing
    agree: [list_models] returns normally and a name is in its result
    exactly when it is in the registry. *)
Theorem import_module_agrees_with_list_models (module_dir : Path) (fs : filesystem) :
  fst (import_module module_dir fs) = Ok tt ->
  exists names,
    list_models module_dir fs = Ok names
    /\ forall name,
         In name names
         <-> In name (registry_names (snd (import_module module_dir fs))).
Proof.
  unfold import_module. intros Hrun.
  pose proof (rescan_inv fs _ Hrun) as Hread.
  cbn [_MODEL_CONFIG_PATHS initial_state] in Hread.
  rewrite collect_default_source in Hread.
  destruct (rescan_ok fs (initial_state module_dir) (initial_state_ok module_dir))
    as (st' & Hrun' & _ & _ & _ & Hsorted & _).
  { cbn [_MODEL_CONFIG_PATHS initial_state]. by rewrite collect_default_source. }
  rewrite Hrun'. cbn [snd].
  cbn [_MODEL_CONFIG_PATHS initial_state] in Hsorted.
  rewrite collect_default_source in Hsorted.
  set (files := glob fs (default_config_path module_dir) ".json") in *.
  destruct (sorted_names_ok (dict_keys (valid_entries fs files)))
    as (names & Hsort & Hperm & _).
  exists names. split.
  { unfold list_models. fold files. by rewrite (list_models_loop_ok fs files [] Hread). }
  set (updated := dict_update (registry_view (initial_state module_dir)) _) in Hsorted.
  destruct (sorted_natural_ok updated) as (r & Hr & Hperm' & _).
  rewrite Hsorted in Hr. injection Hr as <-.
  intros name. rewrite <- Hperm.
  assert (Hnames : registry_names st' = dict_keys (registry_view st')).
  { unfold registry_view. by rewrite dict_keys_on_value. }
  rewrite Hnames. unfold dict_keys at 2. rewrite <- (Permutation_map fst Hperm').
  fold (dict_keys updated). unfold updated. rewrite dict_keys_update.
  cbn. tauto.
Qed.

Lemma import_module_agrees_with_list_models_witness :
  fst (import_module Demo.pkg Demo.fs_partial) = Ok tt
  /\ exists names,
       list_models Demo.pkg Demo.fs_partial = Ok names
       /\ forall name,
            In name names
            <-> In name (registry_names (snd (import_module Demo.pkg Demo.fs_partial))).
Proof.
  split; [reflexivity|].
  exact (import_module_agrees_with_list_models Demo.pkg Demo.fs_partial eq_refl).
Defined.

Lemma load_config_files_stops (fs : filesystem) (good : list Path) (bad : Path)
    (rest : list Path) (st : state) :
  registry_ok st ->
  Forall (readable fs) good ->
  ~ readable fs bad ->
  exists e st',
    load_config_files fs (good ++ bad :: rest) st = (Raise e, st')
    /\ registry_view st' = dict_update (registry_view st) (valid_entries fs good).
Proof.
  intros Hok Hgood Hbad. revert st Hok.
  induction Hgood as [|cf good (doc & b & Hread & Hall) _ IH]; intros st Hok.
  - cbn [app valid_entries flat_map dict_update fold_left].
    cbn [load_config_files].
    unfold bind, json_load, bind, lift, alloc, deref, get_configs, put_configs, ret.
    destruct (read_json fs bad) as [doc|e] eqn:Hread; [|by exists e, st].
    cbn [heap]. rewrite read_heap_alloc.
    destruct (all_in required_fields doc) as [b|e] eqn:Hall.
    + destruct Hbad. by exists doc, b.
    + eexists e, _. split; [reflexivity|].
      unfold registry_view. cbn [heap _MODEL_CONFIGS].
      apply registry_view_alloc, Hok.
  - cbn [app]. rewrite (load_config_files_step fs cf _ st doc b Hread Hall).
    destruct (scan_turn_state st (PathOps.stem cf) doc b Hok) as [Hok1 Hview1].
    destruct (IH _ Hok1) as (e & st' & Hrun & Hview).
    exists e, st'. split; [exact Hrun|].
    rewrite Hview, Hview1, valid_entries_cons, Hread, Hall. by destruct b.
Qed.

(** [X16] A scan that meets a file it cannot read stops there: the error
    is raised, the entries assigned from the candidates before that file
    stay in the registry, the candidates after it are not read, and the
    registry is left unsorted. *)
Theorem rescan_stops_midway (fs : filesystem) (st : state)
    (good : list Path) (bad : Path) (rest : list Path) :
  registry_ok st ->
  collect_config_files fs (_MODEL_CONFIG_PATHS st) = (good ++ bad :: rest)%list ->
  Forall (readable fs) good ->
  ~ readable fs bad ->
  exists e,
    fst (_rescan_model_configs fs st) = Raise e
    /\ registry_view (snd (_rescan_model_configs fs st))
       = dict_update (registry_view st) (valid_entries fs good).
Proof.
  intros Hok Hfiles Hgood Hbad.
  destruct (load_config_files_stops fs good bad rest st Hok Hgood Hbad)
    as (e & st' & Hrun & Hview).
  exists e. unfold _rescan_model_configs, bind, get_paths.
  rewrite Hfiles, Hrun. by cbn [fst snd].
Qed.

Lemma rescan_stops_midway_witness :
  registry_ok (initial_state Demo.pkg)
  /\ fst (_rescan_model_configs Demo2.fs_midway (initial_state Demo.pkg))
     = Raise JSONDecodeError
  /\ registry_names (snd (_rescan_model_configs Demo2.fs_midway (initial_state Demo.pkg)))
     = ["ViT-B-32"; "ViT-B-16"]
  /\ exists e,
       fst (_rescan_model_configs Demo2.fs_midway (initial_state Demo.pkg)) = Raise e
       /\ registry_view
            (snd (_rescan_model_configs Demo2.fs_midway (initial_state Demo.pkg)))
          = dict_update (registry_view (initial_state Demo.pkg))
              (valid_entries Demo2.fs_midway
                 [(Demo.pkg ++ ["model_configs"; "ViT-B-32.json"])%list;
                  (Demo.pkg ++ ["model_configs"; "ViT-B-16.json"])%list]).
Proof.
  pose proof (initial_state_ok Demo.pkg) as Hok.
  split; [exact Hok|]. split; [reflexivity|]. split; [reflexivity|].
  apply (rescan_stops_midway Demo2.fs_midway (initial_state Demo.pkg)
           [(Demo.pkg ++ ["model_configs"; "ViT-B-32.json"])%list;
            (Demo.pkg ++ ["model_configs"; "ViT-B-16.json"])%list]
           (Demo.pkg ++ ["model_configs"; "broken.json"])%list
           [(Demo.pkg ++ ["model_configs"; "RN50.json"])%list] Hok eq_refl).
  - repeat constructor; eexists _, _; split; reflexivity.
  - intros (doc & b & Hread & _). discriminate Hread.
Defined.

(** * Invariants across the module's operations *)

Lemma create_model_heap_grows
    (module_dir : Path) (X : collaborators) (fs : filesystem) (st : state)
    (model_name pretrained precision : string) (dev : device)
    (jit force_quick_gelu : bool) :
  let st' := snd (create_model module_dir X fs model_name pretrained precision dev
                    jit force_quick_gelu st) in
  _MODEL_CONFIGS st' = _MODEL_CONFIGS st
  /\ length (heap st) <= length (heap st').
Proof.
  intros st'. subst st'. run_builder.
  all: split; [reflexivity|].
  all: rewrite ?length_insert, ?length_app; cbn [length]; lia.
Qed.

(** [X17] The registry stays a well-formed dict through every operation
    of the module, whether the operation returns or raises: no name
    occurs twice and every entry refers to an existing object after the
    import, after a scan, after registering a source, and after building
    a model with or without its pipelines. *)
Theorem registry_ok_preserved
    (module_dir : Path) (X : collaborators) (T : transform_collaborators X)
    (fs : filesystem) (st : state) (path : Path)
    (model_name pretrained precision : string) (dev : device)
    (jit force_quick_gelu : bool) :
  registry_ok (snd (import_module module_dir fs))
  /\ (registry_ok st ->
      registry_ok (snd (_rescan_model_configs fs st))
      /\ registry_ok (snd (add_model_config fs path st))
      /\ registry_ok (snd (create_model module_dir X fs model_name pretrained
                             precision dev jit force_quick_gelu st))
      /\ registry_ok (snd (create_model_and_transforms module_dir X T fs model_name
                             pretrained precision dev jit force_quick_gelu st))).
Proof.
  split; [apply import_module_ok|]. intros Hok.
  assert (Hbuilt : registry_ok (snd (create_model module_dir X fs model_name pretrained
                                       precision dev jit force_quick_gelu st))).
  { destruct (create_model_heap_grows module_dir X fs st model_name pretrained
                precision dev jit force_quick_gelu) as [Hcs Hlen].
    destruct Hok as [Hnd Hwf]. split.
    - unfold registry_names. by rewrite Hcs.
    - by eapply registry_wf_frame. }
  split; [by apply rescan_preserves_ok|].
  split; [by apply add_model_config_ok|].
  split; [exact Hbuilt|].
  assert (Hsame : snd (create_model_and_transforms module_dir X T fs model_name
                         pretrained precision dev jit force_quick_gelu st)
                  = snd (create_model module_dir X fs model_name pretrained
                           precision dev jit force_quick_gelu st)).
  { unfold create_model_and_transforms, bind, lift, ret.
    destruct (create_model module_dir X fs model_name pretrained precision dev jit
                force_quick_gelu st) as [[model|e] st']; cbn [snd]; [|done].
    destruct (visual_image_size T model) as [size|e1]; [|done].
    destruct (image_transform T size true) as [tr|e2]; [|done].
    by destruct (image_transform T size false) as [ev|e3]. }
  by rewrite Hsame.
Qed.

Lemma registry_ok_preserved_witness :
  registry_ok Demo.booted
  /\ registry_ok (snd (add_model_config Demo.fs_stray ["extra"] Demo.booted))
  /\ fst (add_model_config Demo.fs_stray ["extra"] Demo.booted) = Raise JSONDecodeError.
Proof.
  assert (Hok : registry_ok Demo.booted).
  { exact (proj1 (registry_ok_preserved Demo.pkg Demo.world Demo2.transforms
                    Demo.fs_shipped Demo.booted ["extra"] "ViT-B-32" EmptyString
                    "fp32" cpu false false)). }
  split; [exact Hok|]. split; [|reflexivity].
  exact (proj1 (proj2 (proj2 (registry_ok_preserved Demo.pkg Demo.world Demo2.transforms
                                Demo.fs_stray Demo.booted ["extra"] "ViT-B-32"
                                EmptyString "fp32" cpu false false) Hok))).
Defined.

Lemma collect_config_files_app (fs : filesystem) (ps qs : list Path) :
  collect_config_files fs (ps ++ qs)
  = (collect_config_files fs ps ++ collect_config_files fs qs)%list.
Proof. unfold collect_config_files. apply flat_map_app. Qed.

(** [X18] [add_model_config] appends its path to the source list whatever
    the scan then does, so the list grows by exactly one entry per call
    and never shrinks.  When the scan returns, every document with the
    three required fields that sits directly in a registered directory is
    registered under its stem. *)
Theorem add_model_config_registers (fs : filesystem) (path : Path) (st : state) :
  let out := add_model_config fs path st in
  _MODEL_CONFIG_PATHS (snd out) = (_MODEL_CONFIG_PATHS st ++ [path])%list
  /\ (registry_ok st ->
      fst out = Ok tt ->
      forall cf doc,
        In cf (glob fs path ".json") ->
        complete fs cf doc ->
        In (PathOps.stem cf) (registry_names (snd out))).
Proof.
  intros out. split; [apply add_model_config_paths|].
  intros Hok Hrun cf doc Hcf Hcomplete. subst out.
  unfold add_model_config, bind, get_paths, put_paths in *.
  set (st0 := mkState (heap st) (_MODEL_CONFIG_PATHS st ++ [path])
                (_MODEL_CONFIGS st) (trace st)) in *.
  assert (Hok0 : registry_ok st0) by exact Hok.
  pose proof (rescan_inv fs st0 Hrun) as Hread.
  destruct (rescan_ok fs st0 Hok0 Hread) as (st' & Hrun' & _ & _ & _ & Hsorted & _).
  rewrite Hrun'. cbn [snd].
  set (updated := dict_update (registry_view st0) _) in Hsorted.
  destruct (sorted_natural_ok updated) as (r & Hr & Hperm & _).
  rewrite Hsorted in Hr. injection Hr as <-.
  assert (Hnames : registry_names st' = dict_keys (registry_view st')).
  { unfold registry_view. by rewrite dict_keys_on_value. }
  rewrite Hnames. unfold dict_keys. rewrite <- (Permutation_map fst Hperm).
  fold (dict_keys updated). unfold updated. apply dict_keys_update. right.
  apply valid_entries_keys. exists cf, doc. split; [|by split].
  cbn [_MODEL_CONFIG_PATHS st0]. rewrite collect_config_files_app.
  apply in_or_app. right.
  apply (glob_candidates fs [path] path); [by left|done].
Qed.

Lemma add_model_config_registers_witness :
  registry_ok (snd (import_module Demo.pkg Demo.fs_extra))
  /\ fst (add_model_config Demo.fs_extra ["extra"]
            (snd (import_module Demo.pkg Demo.fs_extra))) = Ok tt
  /\ In ["extra"; "model10.json"] (glob Demo.fs_extra ["extra"] ".json")
  /\ complete Demo.fs_extra ["extra"; "model10.json"] (Demo.vit_cfg 256)
  /\ In "model10" (registry_names Demo.with_extra).
Proof.
  pose proof (import_module_ok Demo.pkg Demo.fs_extra) as Hok.
  assert (Hcf : In ["extra"; "model10.json"] (glob Demo.fs_extra ["extra"] ".json"))
    by (vm_compute; auto).
  assert (Hc : complete Demo.fs_extra ["extra"; "model10.json"] (Demo.vit_cfg 256))
    by (split; [reflexivity|repeat constructor]).
  split; [exact Hok|]. split; [reflexivity|]. split; [exact Hcf|]. split; [exact Hc|].
  exact (proj2 (add_model_config_registers Demo.fs_extra ["extra"]
                  (snd (import_module Demo.pkg Demo.fs_extra)))
           Hok eq_refl _ _ Hcf Hc).
Defined.

(** * Further properties of the checkpoint loader *)

(** [X19] Failures of the loader: an error raised by [torch.load] passes
    through unchanged, and a payload that is not a mapping (directly, or
    under the "state_dict" key of a wrapper) raises [AttributeError] at
    the [items()] call. *)
Theorem load_state_dict_errors
    (torch_load : string -> result pyobj) (checkpoint_path : string) :
  (forall e, torch_load checkpoint_path = Raise e ->
             load_state_dict torch_load checkpoint_path = Raise e)
  /\ (forall checkpoint,
        torch_load checkpoint_path = Ok checkpoint ->
        (forall items, select_state_dict checkpoint <> Mapping items) ->
        load_state_dict torch_load checkpoint_path = Raise AttributeError).
Proof.
  unfold load_state_dict. split.
  - by intros e ->.
  - intros checkpoint -> Hnot. cbn [rbind].
    destruct (select_state_dict checkpoint) as [t|items|tag]; cbn; try done.
    by destruct (Hnot items).
Qed.

Lemma load_state_dict_errors_witness :
  Demo.torch_load_of (Mapping [("state_dict", Opaque "model")]) "whole_model.pt"
  = Ok (Mapping [("state_dict", Opaque "model")])
  /\ load_state_dict (Demo.torch_load_of (Mapping [("state_dict", Opaque "model")]))
       "whole_model.pt"
     = Raise AttributeError.
Proof.
  split; [reflexivity|].
  apply (proj2 (load_state_dict_errors
                  (Demo.torch_load_of (Mapping [("state_dict", Opaque "model")]))
                  "whole_model.pt") _ eq_refl).
  intros items. discriminate.
Defined.

Lemma dict_set_length {V : Type} (k : string) (v : V) (d : list (string * V)) :
  length (dict_set k v d) <= S (length d).
Proof.
  induction d as [|[k' v'] d IH]; cbn; [lia|].
  destruct (String.eqb k' k); cbn; lia.
Qed.

Lemma dict_update_length {V : Type} (d items : list (string * V)) :
  length (dict_update d items) <= length d + length items.
Proof.
  revert d. induction items as [|[k v] items IH]; intros d; cbn [length]; [cbn; lia|].
  rewrite dict_update_cons. specialize (IH (dict_set k v d)).
  pose proof (dict_set_length k v d). lia.
Qed.

(** [X20] Prefix stripping is all or nothing and decided by the first key
    alone.  When the first key does not start with "module" the mapping
    is returned as it is.  When it does, every key loses its first seven
    characters, whatever it starts with: each item of the result carries
    the value of an item of the checkpoint under that item's shortened
    key, every shortened key is present, no key occurs twice, and the
    result has no more items than the checkpoint. *)
Theorem load_state_dict_items
    (torch_load : string -> result pyobj) (checkpoint_path : string)
    (checkpoint : pyobj) (first_key : string) (v0 : pyobj)
    (rest : list (string * pyobj)) :
  torch_load checkpoint_path = Ok checkpoint ->
  select_state_dict checkpoint = Mapping ((first_key, v0) :: rest) ->
  let items := (first_key, v0) :: rest in
  exists out,
    load_state_dict torch_load checkpoint_path = Ok (Mapping out)
    /\ if Str.startswith first_key "module"
       then (forall k v, In (k, v) out ->
                         exists k0, In (k0, v) items /\ k = Str.slice_from 7 k0)
            /\ (forall k0, In k0 (dict_keys items) ->
                           In (Str.slice_from 7 k0) (dict_keys out))
            /\ List.NoDup (dict_keys out)
            /\ length out <= length items
       else out = items.
Proof.
  intros Hload Hsel items. unfold load_state_dict. rewrite Hload. cbn [rbind].
  rewrite Hsel. cbn [strip_module_prefix].
  destruct (Str.startswith first_key "module").
  - exists (dict_update [] (map strip_key items)). split; [reflexivity|].
    split; [|split; [|split]].
    + intros k v Hin. apply dict_update_In in Hin as [[]|Hin].
      apply in_map_iff in Hin as ([k0 v'] & [= <- <-] & Hin).
      by exists k0.
    + intros k0 Hk0. apply dict_keys_update. right.
      unfold dict_keys in *. apply in_map_iff in Hk0 as ([k v] & <- & Hin).
      apply in_map_iff. exists (strip_key (k, v)). split; [done|].
      by apply in_map.
    + apply dict_update_keys_NoDup. constructor.
    + pose proof (dict_update_length [] (map strip_key items)) as Hlen.
      rewrite length_map in Hlen. cbn [length] in *. lia.
  - by exists items.
Qed.

Lemma load_state_dict_items_witness :
  Demo.torch_load_of Demo.training_checkpoint "epoch_3.pt" = Ok Demo.training_checkpoint
  /\ select_state_dict Demo.training_checkpoint
     = Mapping [("module.visual.proj", Tensor 1); ("module.logit_scale", Tensor 2)]
  /\ exists out,
       load_state_dict (Demo.torch_load_of Demo.training_checkpoint) "epoch_3.pt"
       = Ok (Mapping out)
       /\ length out <= 2.
Proof.
  split; [reflexivity|]. split; [reflexivity|].
  destruct (load_state_dict_items (Demo.torch_load_of Demo.training_checkpoint)
              "epoch_3.pt" Demo.training_checkpoint "module.visual.proj" (Tensor 1)
              [("module.logit_scale", Tensor 2)] eq_refl eq_refl)
    as (out & Hrun & Hcase).
  exists out. split; [exact Hrun|].
  change (Str.startswith "module.visual.proj" "module") with true in Hcase.
  exact (proj2 (proj2 (proj2 Hcase))).
Defined.

(** * The listing on a missing directory *)

(** [X21] When the package has no [model_configs] directory (the path is
    absent or is a regular file), nothing raises: [list_models] returns
    the empty list and the import leaves an empty registry. *)
Theorem missing_default_directory (module_dir : Path) (fs : filesystem) :
  is_dir fs (default_config_path module_dir) = false ->
  list_models module_dir fs = Ok []
  /\ fst (import_module module_dir fs) = Ok tt
  /\ registry_names (snd (import_module module_dir fs)) = [].
Proof.
  intros Hdir.
  assert (Hglob : glob fs (default_config_path module_dir) ".json" = []).
  { unfold glob, is_dir in *.
    by destruct (fs_lookup fs (default_config_path module_dir)) as [[c|entries]|]. }
  split.
  { unfold list_models. by rewrite Hglob. }
  unfold import_module, _rescan_model_configs, bind, get_paths, get_configs, lift,
    put_configs.
  cbn [_MODEL_CONFIG_PATHS initial_state].
  rewrite collect_default_source, Hglob. by cbn.
Qed.

Lemma missing_default_directory_witness :
  is_dir (Dir []) (default_config_path Demo.pkg) = false
  /\ list_models Demo.pkg (Dir []) = Ok []
  /\ fst (import_module Demo.pkg (Dir [])) = Ok tt.
Proof.
  split; [reflexivity|].
  destruct (missing_default_directory Demo.pkg (Dir []) eq_refl) as (Hlist & Hrun & _).
  by split.
Defined.
